(** * ETL pipeline for the bank interest-rate series (etl_tibc.py,
      visualizacion_tibc.py): shallow embedding and properties.

    Tables are pandas DataFrames.  The embedding keeps what the program
    observes of them: an index length, and an ordered list of labelled
    columns (labels may repeat, as in pandas).  Cells are text, numbers,
    timestamps or missing.  Library calls (pandas, requests, sqlite3) are
    modelled by the behaviour the program relies on; each such definition
    says which call it stands for. *)

From Stdlib Require Import ZArith List Ascii String Bool Lia.
From stdpp Require Import base option list strings pretty gmap.

Local Open Scope string_scope.
Local Open Scope Z_scope.

(** ** Exceptions *)

(** Exception classes the two scripts can meet: the subclasses of
    [Exception] that the libraries raise, and [SystemExit], which is not
    one. *)
Inductive exception : Type :=
| RequestException (msg : string)  (* requests: transport failure *)
| HTTPError (msg : string)         (* requests: raise_for_status; a RequestException *)
| EmptyDataError (msg : string)    (* pandas.errors.EmptyDataError *)
| ParserError (msg : string)       (* pandas.errors.ParserError *)
| SqliteError (msg : string)       (* sqlite3.Error and its subclasses *)
| DatabaseError (msg : string)     (* pandas.errors.DatabaseError *)
| KeyError (key : string)
| ValueError (msg : string)
| TypeError (msg : string)
| AttributeError (msg : string)
| OtherException (msg : string).

Inductive exn : Type :=
| Exc (e : exception)
| SystemExit (code : Z).

Coercion Exc : exception >-> exn.

Definition is_RequestException (e : exn) : bool :=
  match e with Exc (RequestException _) | Exc (HTTPError _) => true | _ => false end.

Definition is_EmptyDataError (e : exn) : bool :=
  match e with Exc (EmptyDataError _) => true | _ => false end.

Definition is_sqlite3_Error (e : exn) : bool :=
  match e with Exc (SqliteError _) => true | _ => false end.

Definition is_Exception (e : exn) : bool :=
  match e with Exc _ => true | SystemExit _ => false end.

Inductive result (A : Type) : Type :=
| Ok (a : A)
| Raise (e : exn).
Arguments Ok {A} a.
Arguments Raise {A} e.

Definition rbind {A B} (r : result A) (f : A -> result B) : result B :=
  match r with Ok a => f a | Raise e => Raise e end.

Fixpoint rmap {A B} (f : A -> result B) (l : list A) : result (list B) :=
  match l with
  | [] => Ok []
  | x :: xs => rbind (f x) (fun y => rbind (rmap f xs) (fun ys => Ok (y :: ys)))
  end.

(** ** Cell values *)

Record date : Type := Date { year : Z; month : Z; day : Z }.

(** A float is named by a decimal [mantissa * 10^exponent] (every binary64
    value is one), or is an infinity.  Which float a text reads as is the
    library's business, see [pandas] below. *)
Record dec : Type := Dec { mantissa : Z; exponent : Z }.

Inductive number : Type :=
| Finite (d : dec)
| Infinity (negative : bool).

Inductive cell : Type :=
| CStr (s : string)
| CNum (x : number)
| CDate (d : date)     (* pandas Timestamp at midnight *)
| CNull.               (* NaN, NaT or None *)

Definition isnull (c : cell) : bool :=
  match c with CNull => true | _ => false end.

Global Instance date_eq_dec : EqDecision date.
Proof. solve_decision. Defined.
Global Instance dec_eq_dec : EqDecision dec.
Proof. solve_decision. Defined.
Global Instance number_eq_dec : EqDecision number.
Proof. solve_decision. Defined.
Global Instance cell_eq_dec : EqDecision cell.
Proof. solve_decision. Defined.

(** ** Characters *)

Definition code (c : ascii) : Z := Z.of_nat (nat_of_ascii c).

Definition to_lower (c : ascii) : ascii :=
  if (65 <=? code c) && (code c <=? 90)
  then ascii_of_nat (nat_of_ascii c + 32) else c.

Definition lower (s : string) : string :=
  string_of_list_ascii (map to_lower (list_ascii_of_string s)).

(** Texts that the date parser reads as missing without consulting the
    format: the empty text and the NaT spellings. *)
Definition is_nat_string (s : string) : bool :=
  bool_decide (s ∈ [""; "NaT"; "nat"; "NAT"; "nan"; "NaN"; "NAN"]).

(** ** What pandas reads and writes

    The readers of single texts belong to the installed pandas and differ
    between its versions (the range of dates a Timestamp holds, the digits
    it accepts, what it does with a number too large for a float).  The
    program is modelled over any such library. *)
Record pandas : Type := Pandas {
  (* Python's text for a float, which [astype(str)] uses *)
  str_of_number : number -> string;
  (* pd.to_datetime on one text under format='%d/%m/%Y': the date, or
     [None] where pandas reports that the value cannot be converted *)
  strptime : string -> option date;
  (* pd.to_numeric on one text: the number, or [None] where pandas reports
     that the value cannot be converted *)
  read_number : string -> option number
}.

(** ** Statements with state and exceptions

    A Python block is a function from the state it mutates to the new
    state and either a value or the exception in flight. *)

Definition M (S A : Type) : Type := S -> S * result A.

Definition ret {S A} (a : A) : M S A := fun s => (s, Ok a).
Definition raise {S A} (e : exn) : M S A := fun s => (s, Raise e).

Definition bind {S A B} (m : M S A) (k : A -> M S B) : M S B :=
  fun s => match m s with
           | (s1, Ok a) => k a s1
           | (s1, Raise e) => (s1, Raise e)
           end.

Definition get {S} : M S S := fun s => (s, Ok s).
Definition modify {S} (f : S -> S) : M S unit := fun s => (f s, Ok tt).

(** A pure computation that may raise, run without touching the state. *)
Definition lift {S A} (r : result A) : M S A := fun s => (s, r).

Declare Scope py_scope.
Delimit Scope py_scope with py.
Notation "'let!' x ':=' m 'in' k" := (bind m (fun x => k))
  (at level 10, x name, m at level 100, k at level 200) : py_scope.
Notation "m1 '>>' m2" := (bind m1 (fun _ => m2))
  (at level 80, right associativity) : py_scope.

(** [except <class> as e: <handler>] clauses, tried in order. *)
Definition handler (S A : Type) : Type := (exn -> bool) * (exn -> M S A).

Fixpoint dispatch {S A} (hs : list (handler S A)) (e : exn) : option (M S A) :=
  match hs with
  | [] => None
  | (cls, h) :: rest => if cls e then Some (h e) else dispatch rest e
  end.

(** [try: body except ...]: the handler starts from the state the body
    had reached; an exception no clause matches stays in flight. *)
Definition try_except {S A} (body : M S A) (hs : list (handler S A)) : M S A :=
  fun s => match body s with
           | (s1, Ok a) => (s1, Ok a)
           | (s1, Raise e) =>
               match dispatch hs e with
               | Some h => h s1
               | None => (s1, Raise e)
               end
           end.

(** [try: body finally: fin]: [fin] always runs; the outcome of the body
    survives unless [fin] itself raises. *)
Definition try_finally {S A} (body : M S A) (fin : M S unit) : M S A :=
  fun s => match body s with
           | (s1, r) =>
               match fin s1 with
               | (s2, Ok _) => (s2, r)
               | (s2, Raise e) => (s2, Raise e)
               end
           end.

(** ** DataFrames *)

Record DataFrame : Type := Frame {
  nrows : nat;                             (* len(df.index) *)
  columns : list (string * list cell)      (* labels with their data, in order *)
}.

(** Every column is as long as the index. *)
Definition well_formed (df : DataFrame) : Prop :=
  Forall (fun c => length (snd c) = nrows df) (columns df).

(** [pd.DataFrame()] *)
Definition empty_frame : DataFrame := Frame 0 [].

(** [df.empty]: some axis has length 0. *)
Definition is_empty (df : DataFrame) : bool :=
  (nrows df =? 0)%nat || (length (columns df) =? 0)%nat.

(** [df.rename(columns=mapping)]: a new frame, each label looked up in the
    dict and kept when absent. *)
Definition rename (mapping : gmap string string) (df : DataFrame) : DataFrame :=
  Frame (nrows df)
        (map (fun c => (default (fst c) (mapping !! fst c), snd c)) (columns df)).

(** What [df[label]] evaluates to: a Series for a label that occurs once,
    a sub-frame when the label is repeated. *)
Inductive item : Type :=
| Series (data : list cell)
| SubFrame (cols : list (string * list cell)).

Definition has_label (label : string) (c : string * list cell) : bool :=
  bool_decide (fst c = label).

Definition getitem (df : DataFrame) (label : string) : result item :=
  match List.filter (has_label label) (columns df) with
  | [] => Raise (KeyError label)
  | [c] => Ok (Series (snd c))
  | cs => Ok (SubFrame cs)
  end.

(** [df[label] = data]: replaces the data under that label where it occurs,
    and appends a column when it does not. *)
Definition setitem (df : DataFrame) (label : string) (data : list cell) : DataFrame :=
  if existsb (has_label label) (columns df)
  then Frame (nrows df)
             (map (fun c => if has_label label c then (fst c, data) else c) (columns df))
  else Frame (nrows df) (columns df ++ [(label, data)]).

(** The column stored under a label that occurs exactly once. *)
Definition column (df : DataFrame) (label : string) : option (list cell) :=
  match getitem df label with
  | Ok (Series l) => Some l
  | _ => None
  end.

(** *** pd.to_datetime(..., format='%d/%m/%Y') *)

Inductive errors_mode : Type := errors_raise | errors_coerce.

Definition unparsed (mode : errors_mode) (msg : string) : result cell :=
  match mode with
  | errors_raise => Raise (ValueError msg)
  | errors_coerce => Ok CNull
  end.

(** One element.  Missing values and the texts that spell a missing value
    give NaT in both modes; a Timestamp is kept; any other value is read as
    text under the format (a number never has that shape). *)
Definition to_datetime_cell (lib : pandas) (mode : errors_mode) (c : cell)
  : result cell :=
  match c with
  | CNull => Ok CNull
  | CDate d => Ok (CDate d)
  | CStr s =>
      if is_nat_string s then Ok CNull
      else match strptime lib s with
           | Some d => Ok (CDate d)
           | None => unparsed mode "time data does not match format"
           end
  | CNum _ => unparsed mode "time data does not match format"
  end.

(** A sub-frame is assembled from columns named year, month and day, which
    a frame of equally labelled columns never has. *)
Definition to_datetime (lib : pandas) (mode : errors_mode) (arg : item)
  : result (list cell) :=
  match arg with
  | Series l => rmap (to_datetime_cell lib mode) l
  | SubFrame _ => Raise (ValueError "to assemble mappings requires year, month, day")
  end.

(** *** .astype(str), .str.replace, pd.to_numeric *)

Definition pad2 (z : Z) : string :=
  String (ascii_of_nat (48 + Z.to_nat (z / 10 mod 10)))
    (String (ascii_of_nat (48 + Z.to_nat (z mod 10))) "").

Definition pad4 (z : Z) : string :=
  pad2 (z / 100) ++ pad2 z.

(** str of a datetime64 value with no time of day. *)
Definition str_of_date (d : date) : string :=
  pad4 (year d) ++ "-" ++ pad2 (month d) ++ "-" ++ pad2 (day d).

Definition remove_char (x : ascii) (s : string) : string :=
  string_of_list_ascii
    (filter (fun c => c <> x) (list_ascii_of_string s)).

(** [pd.to_numeric(..., errors='coerce')] on one element. *)
Definition to_numeric_cell (lib : pandas) (c : cell) : cell :=
  match c with
  | CStr s => match read_number lib s with
              | Some x => CNum x
              | None => CNull
              end
  | CNum x => CNum x
  | CDate _ => CNull
  | CNull => CNull
  end.

Definition to_numeric (lib : pandas) (arg : item) : result (list cell) :=
  match arg with
  | Series l => Ok (map (to_numeric_cell lib) l)
  | SubFrame _ => Raise (TypeError "arg must be a list, tuple, 1-d array, or Series")
  end.

Section Transform.

Variable lib : pandas.

Definition str_of_cell (c : cell) : string :=
  match c with
  | CStr s => s
  | CNum x => str_of_number lib x
  | CDate d => str_of_date d
  | CNull => "nan"
  end.

(** [.astype(str)] works on a Series and on a frame alike. *)
Definition astype_str (arg : item) : item :=
  match arg with
  | Series l => Series (map (fun c => CStr (str_of_cell c)) l)
  | SubFrame cs =>
      SubFrame (map (fun c => (fst c, map (fun x => CStr (str_of_cell x)) (snd c))) cs)
  end.

(** [.str.replace('%', '', regex=False)]: only a Series has [.str]; every
    occurrence of the character goes. *)
Definition str_replace_percent (arg : item) : result (list cell) :=
  match arg with
  | Series l =>
      Ok (map (fun c => match c with
                        | CStr s => CStr (remove_char "%"%char s)
                        | _ => CNull
                        end) l)
  | SubFrame _ => Raise (AttributeError "'DataFrame' object has no attribute 'str'")
  end.

Definition column_mapping : gmap string string :=
  list_to_map
    [("RESOLUCION", "resolucion_id");
     ("FECHA_RESOLUCION", "fecha_resolucion");
     ("VIGENCIA_DESDE", "vigencia_desde");
     ("VIGENCIA_HASTA", "vigencia_hasta");
     ("INTERES_BANCARIO_CORRIENTE", "tasa_interes_ea");
     ("MODALIDAD", "tipo_credito_nombre")].

(** [df_transformed[label] = rhs], the right-hand side evaluated first. *)
Definition assign (label : string) (rhs : DataFrame -> result (list cell))
  : M DataFrame unit :=
  fun df => match rhs df with
            | Ok data => (setitem df label data, Ok tt)
            | Raise e => (df, Raise e)
            end.

Definition except_Exception_pass : list (handler DataFrame unit) :=
  [(is_Exception, fun _ => ret tt)].

(** The four try blocks of [transform_data], acting on [df_transformed].
    The print statements only write to standard output and are left out. *)
Definition convert_columns : M DataFrame unit :=
  (try_except
     (assign "fecha_resolucion" (fun df =>
        rbind (getitem df "fecha_resolucion") (to_datetime lib errors_raise)))
     except_Exception_pass >>
   try_except
     (assign "vigencia_desde" (fun df =>
        rbind (getitem df "vigencia_desde") (to_datetime lib errors_coerce)))
     except_Exception_pass >>
   try_except
     (assign "vigencia_hasta" (fun df =>
        rbind (getitem df "vigencia_hasta") (to_datetime lib errors_coerce)))
     except_Exception_pass >>
   try_except
     (assign "tasa_interes_ea" (fun df =>
        rbind (getitem df "tasa_interes_ea") (fun s =>
        str_replace_percent (astype_str s))) >>
      assign "tasa_interes_ea" (fun df =>
        rbind (getitem df "tasa_interes_ea") (to_numeric lib)))
     except_Exception_pass)%py.

Definition transform_data (df : DataFrame) : result DataFrame :=
  if is_empty df then Ok empty_frame
  else match convert_columns (rename column_mapping df) with
       | (df_transformed, Ok _) => Ok df_transformed
       | (_, Raise e) => Raise e
       end.

End Transform.


(** ** The world outside the process *)

Inductive sql_value : Type :=
| SqlNull
| SqlText (s : string)
| SqlReal (x : number).

(** A stored table: its row count and its named columns. *)
Record sql_table : Type := Table {
  t_nrows : nat;
  t_columns : list (string * list sql_value)
}.

Inductive event : Type :=
| Print (text : string)       (* a line on standard output *)
| HttpGet (url : string)
| Connect (path : string)     (* sqlite3.connect returned a connection *)
| Close (path : string)       (* conn.close() *)
| SaveFig (path : string).    (* plt.savefig *)

(** Database files by path, each a map from table names to tables, and
    what the process has done so far, oldest first. *)
Record world : Type := World {
  disk : gmap string (gmap string sql_table);
  trace : list event
}.

(** What the program reads of a requests.Response. *)
Record response : Type := Response {
  status_code : Z;
  reason : string;      (* the reason phrase, as in "Not Found" *)
  url : string;         (* the URL that answered *)
  text : string
}.

Inductive reply (A : Type) : Type :=
| Reply (a : A)
| Fails (e : exception).
Arguments Reply {A} a.
Arguments Fails {A} e.

(** What the libraries and the machine answer; none of it is code of the
    repository. *)
Record environment : Type := Env {
  (* the readers of the installed pandas *)
  env_pandas : pandas;
  (* requests.get(url): a response, or a transport failure *)
  http_get : string -> reply response;
  (* pd.read_csv(io.StringIO(text)) with default options *)
  read_csv : string -> reply DataFrame;
  (* sqlite3.connect(path) failing *)
  connect_fault : string -> option exception;
  (* the storage engine failing while it writes the given table under the
     given name (a value it cannot bind, a full disk), and what it then
     leaves of the database *)
  write_fault : DataFrame -> string ->
                option (exception * (gmap string sql_table -> gmap string sql_table));
  (* the text SQLite makes of a number stored in a column declared TEXT *)
  sqlite_text_of_number : number -> string;
  (* the storage engine failing during a read *)
  read_fault : option exception;
  (* directory of the visualization script *)
  script_dir : string;
  (* pd.to_datetime(column, errors='coerce') without a format: the reading
     pandas settles on for that column, applied to each element *)
  infer_datetime : list cell -> cell -> cell;
  (* seaborn and matplotlib failing to draw or save a chart *)
  chart_fault : string -> DataFrame -> option exception
}.

Definition call {S A} (r : reply A) : M S A :=
  match r with
  | Reply a => ret a
  | Fails e => raise (Exc e)
  end.

Definition emit (ev : event) : M world unit :=
  modify (fun w => World (disk w) (trace w ++ [ev])).

Definition print (text : string) : M world unit := emit (Print text).

(** The text of [{e}] in a message: the message the exception was raised
    with; for a KeyError, Python's repr of the key, which for the labels
    the scripts look up is the key between single quotes. *)
Definition str_of_exn (e : exn) : string :=
  match e with
  | Exc (RequestException m) => m
  | Exc (HTTPError m) => m
  | Exc (EmptyDataError m) => m
  | Exc (ParserError m) => m
  | Exc (SqliteError m) => m
  | Exc (DatabaseError m) => m
  | Exc (KeyError k) => "'" ++ k ++ "'"
  | Exc (ValueError m) => m
  | Exc (TypeError m) => m
  | Exc (AttributeError m) => m
  | Exc (OtherException m) => m
  | SystemExit _ => ""
  end.

(** ** extract_data *)

Definition requests_get (env : environment) (url : string) : M world response :=
  (emit (HttpGet url) >> call (http_get env url))%py.

(** The message requests gives an HTTPError. *)
Definition http_error_msg (kind : string) (r : response) : string :=
  pretty (status_code r) ++ " " ++ kind ++ " Error: " ++ reason r
  ++ " for url: " ++ url r.

(** [response.raise_for_status()]: an HTTPError for 4xx and for 5xx, and
    nothing for any other status. *)
Definition raise_for_status (r : response) : M world unit :=
  if (400 <=? status_code r) && (status_code r <? 500)
  then raise (Exc (HTTPError (http_error_msg "Client" r)))
  else if (500 <=? status_code r) && (status_code r <? 600)
  then raise (Exc (HTTPError (http_error_msg "Server" r)))
  else ret tt.

Definition extract_data (env : environment) (url : string) : M world DataFrame :=
  (print ("Iniciando la extracción de datos desde: " ++ url) >>
   try_except
     (let! response := requests_get env url in
      raise_for_status response >>
      let! df := call (read_csv env (text response)) in
      print "Datos extraídos exitosamente." >>
      ret df)
     [(is_RequestException, fun e =>
         print ("Error al extraer los datos desde la URL: " ++ str_of_exn e) >>
         ret empty_frame);
      (is_EmptyDataError, fun _ =>
         print "El archivo CSV está vacío o no contiene datos." >>
         ret empty_frame);
      (is_Exception, fun e =>
         print ("Ocurrió un error inesperado durante la extracción: " ++ str_of_exn e) >>
         ret empty_frame)])%py.

(** ** load_data *)

(** [sqlite3.connect(path)]: creates the file when there is none. *)
Definition sqlite3_connect (env : environment) (path : string) : M world string :=
  match connect_fault env path with
  | Some e => raise (Exc e)
  | None =>
      (modify (fun w =>
         World (match disk w !! path with
                | Some _ => disk w
                | None => <[path := ∅]> (disk w)
                end)
               (trace w)) >>
       emit (Connect path) >>
       ret path)%py
  end.

Definition conn_close (conn : string) : M world unit := emit (Close conn).

Definition update_db (path : string)
    (f : gmap string sql_table -> gmap string sql_table) : M world unit :=
  modify (fun w => World (alter f path (disk w)) (trace w)).

(** The type pandas declares for a column, from the values in it that
    are not missing: REAL for numbers, TIMESTAMP for dates, TEXT for texts,
    for a mixture and for a column with no value. *)
Inductive sql_type : Type := TEXT | REAL | TIMESTAMP.

Definition sql_type_of (col : list cell) : sql_type :=
  match List.filter (fun c => negb (isnull c)) col with
  | [] => TEXT
  | vals =>
      if forallb (fun c => match c with CNum _ => true | _ => false end) vals
      then REAL
      else if forallb (fun c => match c with CDate _ => true | _ => false end) vals
      then TIMESTAMP
      else TEXT
  end.

(** One value as SQLite keeps it in a column of the given type: timestamps
    as text, NaN and NaT as NULL, and a number in a TEXT column as text. *)
Definition sql_of_cell (env : environment) (ty : sql_type) (c : cell) : sql_value :=
  match c with
  | CStr s => SqlText s
  | CNum x => match ty with
              | TEXT => SqlText (sqlite_text_of_number env x)
              | _ => SqlReal x
              end
  | CDate d => SqlText (str_of_date d ++ " 00:00:00")
  | CNull => SqlNull
  end.

(** With [index=False] the table has the frame's columns and nothing else. *)
Definition sql_of_frame (env : environment) (df : DataFrame) : sql_table :=
  Table (nrows df)
        (map (fun c => (fst c, map (sql_of_cell env (sql_type_of (snd c))) (snd c)))
             (columns df)).

(** pandas rejects empty identifiers and identifiers with a NUL. *)
Definition valid_sqlite_name (s : string) : bool :=
  negb (bool_decide (s = "")) &&
  negb (existsb (fun c => code c =? 0) (list_ascii_of_string s)).

(** SQLite compares column names without regard to ASCII case. *)
Definition duplicate_columns (df : DataFrame) : bool :=
  negb (bool_decide (NoDup (map (fun c => lower (fst c)) (columns df)))).

(** The column SQLite names when it refuses a table: the first label that
    repeats an earlier one. *)
Fixpoint first_duplicate (seen labels : list string) : option string :=
  match labels with
  | [] => None
  | l :: rest => if bool_decide (lower l ∈ seen) then Some l
                 else first_duplicate (lower l :: seen) rest
  end.

(** [df.to_sql(table_name, conn, if_exists='replace', index=False)]:
    the identifiers are checked, an existing table of that name is
    dropped, and the table is created and filled.  A repeated column name
    makes CREATE TABLE fail with sqlite3.OperationalError. *)
Definition to_sql (env : environment) (df : DataFrame) (table_name conn : string)
  : M world unit :=
  if negb (valid_sqlite_name table_name &&
           forallb (fun c => valid_sqlite_name (fst c)) (columns df))
  then raise (Exc (ValueError "Empty table or column name specified"))
  else match write_fault env df table_name with
       | Some (e, after) => (update_db conn after >> raise (Exc e))%py
       | None =>
           (update_db conn (delete table_name) >>
            if duplicate_columns df
            then raise (Exc (SqliteError
                   ("duplicate column name: "
                    ++ default "" (first_duplicate [] (map fst (columns df))))))
            else update_db conn (<[table_name := sql_of_frame env df]>))%py
       end.

(** A block with a local variable of its own. *)
Definition with_local {S L A} (init : L) (m : M (S * L) A) : M S A :=
  fun s => match m (s, init) with ((s1, _), r) => (s1, r) end.

Definition in_world {S L A} (m : M S A) : M (S * L) A :=
  fun sl => match m (fst sl) with (s1, r) => ((s1, snd sl), r) end.

Definition set_local {S L} (v : L) : M (S * L) unit :=
  fun sl => ((fst sl, v), Ok tt).

Definition get_local {S L} : M (S * L) L :=
  fun sl => (sl, Ok (snd sl)).

(** The local variable is [conn], [None] until the connection exists. *)
Definition load_data (env : environment) (df : DataFrame)
    (db_name table_name : string) : M world unit :=
  (print ("Iniciando la carga de datos en la base de datos '" ++ db_name
          ++ "', tabla '" ++ table_name ++ "'...") >>
   if is_empty df then
     print "El DataFrame de entrada para la carga está vacío. No se cargará nada."
   else
     with_local (None : option string)
       (try_finally
          (try_except
             (let! c := in_world (sqlite3_connect env db_name) in
              set_local (Some c) >>
              in_world (print ("Conexión a la base de datos '" ++ db_name
                               ++ "' establecida.")) >>
              in_world (to_sql env df table_name c) >>
              in_world (print ("Datos cargados exitosamente en la tabla '"
                               ++ table_name ++ "'.")))
             [(is_sqlite3_Error, fun e =>
                 in_world (print ("Error de SQLite al cargar los datos: "
                                  ++ str_of_exn e)));
              (is_Exception, fun e =>
                 in_world (print ("Ocurrió un error inesperado durante la carga de datos: "
                                  ++ str_of_exn e)))])
          (let! conn := get_local in
           match conn with
           | Some c =>
               in_world (conn_close c) >>
               in_world (print "Conexión a la base de datos cerrada.")
           | None => ret tt
           end)))%py.

(** ** The ETL script *)

Definition csv_url : string :=
  "https://www.datos.gov.co/api/views/pare-7x5i/rows.csv?accessType=DOWNLOAD".

(** The [__main__] block; of its prints only the two that report a
    skipped stage are kept. *)
Definition main (env : environment) : M world unit :=
  (let! df_raw := extract_data env csv_url in
   if negb (is_empty df_raw) then
     let! df_transformed := lift (transform_data (env_pandas env) df_raw) in
     if negb (is_empty df_transformed) then
       load_data env df_transformed "tibc_data.db" "tasas_interes_bancario"
     else
       print "El DataFrame transformado está vacío. No se puede continuar con la carga."
   else
     print "No se pudieron extraer los datos o el DataFrame está vacío. No se puede continuar con la transformación.")%py.

(** ** The visualization script *)

Definition DATABASE_NAME : string := "tibc_data.db".
Definition TABLE_NAME : string := "tasas_interes_bancario".

Definition path_join (dir name : string) : string := dir ++ "/" ++ name.

Definition db_path (env : environment) : string :=
  path_join (script_dir env) DATABASE_NAME.
Definition output_image_path_1 (env : environment) : string :=
  path_join (script_dir env) "tasa_interes_historial.png".
Definition output_image_path_2 (env : environment) : string :=
  path_join (script_dir env) "tasa_interes_distribucion_tipo_credito.png".
Definition output_image_path_3 (env : environment) : string :=
  path_join (script_dir env) "top_5_tasas_altas.png".

(** [os.path.exists] *)
Definition path_exists (path : string) : M world bool :=
  fun w => (w, Ok (bool_decide (is_Some (disk w !! path)))).

(** [sys.exit(code)] raises SystemExit. *)
Definition sys_exit {A} (code : Z) : M world A := raise (SystemExit code).

Definition cell_of_sql (v : sql_value) : cell :=
  match v with
  | SqlNull => CNull
  | SqlText s => CStr s
  | SqlReal x => CNum x
  end.

Definition frame_of_table (t : sql_table) : DataFrame :=
  Frame (t_nrows t) (map (fun c => (fst c, map cell_of_sql (snd c))) (t_columns t)).

(** [pd.read_sql_query("SELECT * FROM <table>", conn)]; pandas reports a
    failed query as its own DatabaseError. *)
Definition read_sql_query (env : environment) (table_name conn : string)
  : M world DataFrame :=
  match read_fault env with
  | Some e => raise (Exc e)
  | None =>
      (let! w := get in
       match disk w !! conn ≫= (fun db => db !! table_name) with
       | Some t => ret (frame_of_table t)
       | None => raise (Exc (DatabaseError "no such table"))
       end)%py
  end.

(** [pd.to_datetime(arg, errors='coerce')] without a format. *)
Definition to_datetime_infer (env : environment) (arg : item) : result (list cell) :=
  match arg with
  | Series l => Ok (map (infer_datetime env l) l)
  | SubFrame _ => Raise (Exc (ValueError "to assemble mappings requires year, month, day"))
  end.

(** Elements of [l] at the positions where [mask] holds. *)
Fixpoint select {A} (mask : list bool) (l : list A) : list A :=
  match mask, l with
  | b :: bs, x :: xs => if b then x :: select bs xs else select bs xs
  | _, _ => []
  end.

(** [df.dropna(subset=labels, inplace=True)]: a KeyError for a label with
    no column; otherwise the rows with no missing value in any column
    carrying one of the labels. *)
Definition dropna (subset : list string) (df : DataFrame) : result DataFrame :=
  match List.filter (fun l => negb (existsb (has_label l) (columns df))) subset with
  | l :: _ => Raise (Exc (KeyError l))
  | [] =>
      let crit := List.filter (fun c => bool_decide (fst c ∈ subset)) (columns df) in
      let mask := map (fun i => forallb (fun c => negb (isnull (nth i (snd c) CNull))) crit)
                      (seq 0 (nrows df)) in
      Ok (Frame (length (List.filter (fun b => b) mask))
                (map (fun c => (fst c, select mask (snd c))) (columns df)))
  end.

(** Order on numbers. *)
Definition dec_leb (a b : dec) : bool :=
  let e := Z.min (exponent a) (exponent b) in
  mantissa a * 10 ^ (exponent a - e) <=? mantissa b * 10 ^ (exponent b - e).

Definition number_leb (a b : number) : bool :=
  match a, b with
  | Infinity true, _ => true
  | _, Infinity false => true
  | Finite x, Finite y => dec_leb x y
  | _, _ => false
  end.

(** Insertion after the entries that are at least as large: descending
    order, earlier rows first among equals. *)
Fixpoint insert_desc (x : nat * number) (l : list (nat * number)) : list (nat * number) :=
  match l with
  | [] => [x]
  | y :: ys => if number_leb (snd x) (snd y) then y :: insert_desc x ys else x :: l
  end.

Definition numbers_of (col : list cell) : option (list number) :=
  mapM (fun c => match c with CNum x => Some x | _ => None end) col.

Definition take_rows (idx : list nat) (df : DataFrame) : DataFrame :=
  Frame (length idx)
        (map (fun c => (fst c, map (fun i => nth i (snd c) CNull) idx)) (columns df)).

(** [df.nlargest(n, label)] on a numeric column without missing values. *)
Definition nlargest (n : nat) (label : string) (df : DataFrame) : result DataFrame :=
  rbind (getitem df label) (fun it =>
    match it with
    | Series col =>
        match numbers_of col with
        | Some xs =>
            let ranked := fold_left (fun acc x => insert_desc x acc)
                                    (combine (seq 0 (length xs)) xs) [] in
            Ok (take_rows (take n (map fst ranked)) df)
        | None => Raise (Exc (TypeError "Column has dtype object, cannot use method 'nlargest'"))
        end
    | SubFrame _ => Raise (Exc (TypeError "cannot use method 'nlargest' with this dtype"))
    end).

(** One chart drawn and saved. *)
Definition chart (env : environment) (path : string) (data : DataFrame) : M world unit :=
  match chart_fault env path data with
  | Some e => raise (Exc e)
  | None => emit (SaveFig path)
  end.

(** [df[label] = f(df[label])] as a value. *)
Definition reassign (label : string) (f : item -> result (list cell)) (df : DataFrame)
  : result DataFrame :=
  rbind (getitem df label) (fun it =>
  rbind (f it) (fun data => Ok (setitem df label data))).

(** The body of the script's try block.  Of its prints the model keeps
    the ones that report an outcome; the three chart blocks are one
    [chart] each. *)
Definition visualizacion_body (env : environment) : M world unit :=
  (let! conn := sqlite3_connect env (db_path env) in
   let! df := read_sql_query env TABLE_NAME conn in
   conn_close conn >>
   (if is_empty df then
      print "ADVERTENCIA: El DataFrame está vacío. No hay datos para visualizar." >>
      sys_exit 0
    else ret tt) >>
   let! df := lift (reassign "fecha_resolucion" (to_datetime_infer env) df) in
   let! df := lift (reassign "vigencia_desde" (to_datetime_infer env) df) in
   let! df := lift (reassign "vigencia_hasta" (to_datetime_infer env) df) in
   let! df := lift (reassign "tasa_interes_ea" (to_numeric (env_pandas env)) df) in
   let! df := lift (dropna ["fecha_resolucion"; "tasa_interes_ea"] df) in
   (if is_empty df then
      print "ADVERTENCIA: El DataFrame está vacío después de eliminar filas con datos nulos críticos. No hay datos para visualizar." >>
      sys_exit 0
    else ret tt) >>
   chart env (output_image_path_1 env) df >>
   chart env (output_image_path_2 env) df >>
   let! top_5_general := lift (nlargest 5 "tasa_interes_ea" df) in
   if (nrows top_5_general =? 0)%nat then
     print "ADVERTENCIA: No hay datos suficientes para generar el gráfico de Top 5 tasas."
   else
     chart env (output_image_path_3 env) top_5_general)%py.

(** The script, with the prints that report an outcome. *)
Definition visualizacion (env : environment) : M world unit :=
  (let! found := path_exists (db_path env) in
   (if negb found then
      print ("ERROR FATAL: La base de datos '" ++ DATABASE_NAME ++ "' NO se encontró en la ruta esperada: " ++ db_path env) >>
      sys_exit 1
    else ret tt) >>
   try_except (visualizacion_body env)
     [(is_sqlite3_Error, fun e =>
         print ("ERROR de SQLite: No se pudo conectar a la base de datos o ejecutar la consulta. Detalles: " ++ str_of_exn e) >>
         sys_exit 1);
      (is_EmptyDataError, fun _ =>
         print "ERROR: No se pudieron leer los datos del DataFrame. El archivo CSV podría estar vacío o corrupto." >>
         sys_exit 1);
      (is_Exception, fun e =>
         print ("ERROR INESPERADO durante la visualización. Detalles: " ++ str_of_exn e) >>
         sys_exit 1)] >>
   print "********** FIN DE GENERACIÓN DE VISUALIZACIONES (EXITOSO) **********")%py.

(** Exit status of a script run: 0 when it runs to its end, the code of a
    SystemExit, and 1 for any other exception left in flight. *)
Definition exit_status {A} (r : result A) : Z :=
  match r with
  | Ok _ => 0
  | Raise (SystemExit c) => c
  | Raise (Exc _) => 1
  end.


(** ** Closed forms used to state what the conversions do *)

Definition opt_of_result {A} (r : result A) : option A :=
  match r with Ok a => Some a | Raise _ => None end.

(** The effect of one guarded conversion: the column under [label], when
    there is exactly one, is replaced by [f] of it when [f] succeeds. *)
Definition update_column (label : string)
    (f : list cell -> option (list cell)) (df : DataFrame) : DataFrame :=
  match column df label with
  | Some col => match f col with
                | Some data => setitem df label data
                | None => df
                end
  | None => df
  end.

(** The date conversions, as functions of the column. *)
Definition convert_dates (lib : pandas) (mode : errors_mode) (col : list cell)
  : option (list cell) :=
  opt_of_result (rmap (to_datetime_cell lib mode) col).

Section TransformClosedForm.

Variable lib : pandas.

(** What the rate block computes for one cell. *)
Definition rate_of_cell (c : cell) : cell :=
  to_numeric_cell lib (CStr (remove_char "%"%char (str_of_cell lib c))).

Definition convert_rates (col : list cell) : option (list cell) :=
  Some (map rate_of_cell col).

(** [transform_data] in closed form. *)
Definition transformed (df : DataFrame) : DataFrame :=
  update_column "tasa_interes_ea" convert_rates
    (update_column "vigencia_hasta" (convert_dates lib errors_coerce)
       (update_column "vigencia_desde" (convert_dates lib errors_coerce)
          (update_column "fecha_resolucion" (convert_dates lib errors_raise)
             (rename column_mapping df)))).

End TransformClosedForm.

(** ** Reading one date under the format, as a total function *)

(** What the permissive conversion leaves in a cell. *)
Definition coerce_date (lib : pandas) (c : cell) : cell :=
  match c with
  | CStr s => if is_nat_string s then CNull
              else match strptime lib s with
                   | Some d => CDate d
                   | None => CNull
                   end
  | CDate d => CDate d
  | CNum _ => CNull
  | CNull => CNull
  end.

(** The cell holds a text that pandas converts under the format (or is a
    Timestamp already). *)
Definition date_matches (lib : pandas) (c : cell) : bool :=
  match c with
  | CStr s => negb (is_nat_string s) && bool_decide (is_Some (strptime lib s))
  | CDate _ => true
  | _ => false
  end.

(** The cell is a missing value for the date parser. *)
Definition date_missing (c : cell) : bool :=
  match c with
  | CNull => true
  | CStr s => is_nat_string s
  | _ => false
  end.

Definition date_acceptable (lib : pandas) (c : cell) : bool :=
  date_matches lib c || date_missing c.

(** ** Counting connections in a trace *)

(** Connections still open after the events, given those open before. *)
Fixpoint open_after (evs : list event) (opened : list string) : list string :=
  match evs with
  | [] => opened
  | Connect p :: rest => open_after rest (p :: opened)
  | Close p :: rest =>
      open_after rest
        (match opened with
         | q :: qs => if bool_decide (q = p) then qs else opened
         | [] => []
         end)
  | _ :: rest => open_after rest opened
  end.

Definition is_Connect (ev : event) : bool :=
  match ev with Connect _ => true | _ => false end.

(** ** What extract_data reports *)

(** The line printed by the except clause that takes the exception. *)
Definition extraction_failure_line (e : exception) : string :=
  if is_RequestException (Exc e)
  then "Error al extraer los datos desde la URL: " ++ str_of_exn (Exc e)
  else if is_EmptyDataError (Exc e)
  then "El archivo CSV está vacío o no contiene datos."
  else "Ocurrió un error inesperado durante la extracción: " ++ str_of_exn (Exc e).

(** The table returned and the last line printed, read off the answers of
    the network and of read_csv. *)
Definition extraction (env : environment) (url : string) : DataFrame * string :=
  match http_get env url with
  | Fails e => (empty_frame, extraction_failure_line e)
  | Reply r =>
      if (400 <=? status_code r) && (status_code r <? 500)
      then (empty_frame,
            extraction_failure_line (HTTPError (http_error_msg "Client" r)))
      else if (500 <=? status_code r) && (status_code r <? 600)
      then (empty_frame,
            extraction_failure_line (HTTPError (http_error_msg "Server" r)))
      else match read_csv env (text r) with
           | Reply d => (d, "Datos extraídos exitosamente.")
           | Fails e => (empty_frame, extraction_failure_line e)
           end
  end.

(** ** What load_data does, read off the answers of the storage *)

(** The files after [sqlite3.connect(path)]. *)
Definition created (path : string) (d : gmap string (gmap string sql_table))
  : gmap string (gmap string sql_table) :=
  match d !! path with
  | Some _ => d
  | None => <[path := ∅]> d
  end.

(** The line printed by the except clause that takes the exception. *)
Definition load_failure_line (e : exception) : string :=
  if is_sqlite3_Error (Exc e)
  then "Error de SQLite al cargar los datos: " ++ str_of_exn (Exc e)
  else "Ocurrió un error inesperado durante la carga de datos: " ++ str_of_exn (Exc e).

Definition names_valid (df : DataFrame) (table_name : string) : bool :=
  valid_sqlite_name table_name &&
  forallb (fun c => valid_sqlite_name (fst c)) (columns df).

(** The exception [to_sql] ends with, if any. *)
Definition store_error (env : environment) (df : DataFrame) (table_name : string)
  : option exception :=
  if negb (names_valid df table_name)
  then Some (ValueError "Empty table or column name specified")
  else match write_fault env df table_name with
       | Some (e, _) => Some e
       | None => if duplicate_columns df
                 then Some (SqliteError
                        ("duplicate column name: "
                         ++ default "" (first_duplicate [] (map fst (columns df)))))
                 else None
       end.

(** What [to_sql] leaves of the database. *)
Definition store_effect (env : environment) (df : DataFrame) (table_name : string)
    (db : gmap string sql_table) : gmap string sql_table :=
  if negb (names_valid df table_name) then db
  else match write_fault env df table_name with
       | Some (_, after) => after db
       | None => if duplicate_columns df
                 then delete table_name db
                 else <[table_name := sql_of_frame env df]> (delete table_name db)
       end.

Definition load_start_line (db_name table_name : string) : string :=
  "Iniciando la carga de datos en la base de datos '" ++ db_name
  ++ "', tabla '" ++ table_name ++ "'...".

(** The events of one call of load_data on a non-empty table. *)
Definition load_events (env : environment) (df : DataFrame)
    (db_name table_name : string) : list event :=
  match connect_fault env db_name with
  | Some e => [Print (load_start_line db_name table_name);
               Print (load_failure_line e)]
  | None =>
      [Print (load_start_line db_name table_name);
       Connect db_name;
       Print ("Conexión a la base de datos '" ++ db_name ++ "' establecida.");
       Print (match store_error env df table_name with
              | Some e => load_failure_line e
              | None => "Datos cargados exitosamente en la tabla '" ++ table_name ++ "'."
              end);
       Close db_name;
       Print "Conexión a la base de datos cerrada."]
  end.

(** The files after one call of load_data on a non-empty table. *)
Definition load_disk (env : environment) (df : DataFrame)
    (db_name table_name : string) (d : gmap string (gmap string sql_table))
  : gmap string (gmap string sql_table) :=
  match connect_fault env db_name with
  | Some _ => d
  | None => alter (store_effect env df table_name) db_name (created db_name d)
  end.

(** ** The stages of the visualization script *)

Definition warning_empty_table : string :=
  "ADVERTENCIA: El DataFrame está vacío. No hay datos para visualizar.".

Definition warning_empty_after_cleaning : string :=
  "ADVERTENCIA: El DataFrame está vacío después de eliminar filas con datos nulos críticos. No hay datos para visualizar.".

(** The four conversions and the dropna, as one function of the table
    that was read. *)
Definition cleaned (env : environment) (df : DataFrame) : result DataFrame :=
  rbind (reassign "fecha_resolucion" (to_datetime_infer env) df) (fun df1 =>
  rbind (reassign "vigencia_desde" (to_datetime_infer env) df1) (fun df2 =>
  rbind (reassign "vigencia_hasta" (to_datetime_infer env) df2) (fun df3 =>
  rbind (reassign "tasa_interes_ea" (to_numeric (env_pandas env)) df3) (fun df4 =>
  dropna ["fecha_resolucion"; "tasa_interes_ea"] df4)))).

(** The three charts. *)
Definition charts (env : environment) (df : DataFrame) : M world unit :=
  (chart env (output_image_path_1 env) df >>
   chart env (output_image_path_2 env) df >>
   let! top_5_general := lift (nlargest 5 "tasa_interes_ea" df) in
   if (nrows top_5_general =? 0)%nat then
     print "ADVERTENCIA: No hay datos suficientes para generar el gráfico de Top 5 tasas."
   else
     chart env (output_image_path_3 env) top_5_general)%py.

(** The line printed by the except clause that takes the exception. *)
Definition visualizacion_failure_line (e : exception) : string :=
  if is_sqlite3_Error (Exc e)
  then "ERROR de SQLite: No se pudo conectar a la base de datos o ejecutar la consulta. Detalles: " ++ str_of_exn (Exc e)
  else if is_EmptyDataError (Exc e)
  then "ERROR: No se pudieron leer los datos del DataFrame. El archivo CSV podría estar vacío o corrupto."
  else "ERROR INESPERADO durante la visualización. Detalles: " ++ str_of_exn (Exc e).

(** ** A sample library: the readers of pandas 2 on ASCII text *)

Definition is_digit (c : ascii) : bool := (48 <=? code c) && (code c <=? 57).
Definition is_digit_1_9 (c : ascii) : bool := (49 <=? code c) && (code c <=? 57).
Definition digit_val (c : ascii) : Z := code c - 48.

(** [isspace_ascii] of the pandas tokenizer: space and \t \n \v \f \r. *)
Definition is_space (c : ascii) : bool :=
  (code c =? 32) || ((9 <=? code c) && (code c <=? 13)).

Fixpoint span_digits (l : list ascii) : list ascii * list ascii :=
  match l with
  | c :: r => if is_digit c
              then let '(ds, rest) := span_digits r in (c :: ds, rest)
              else ([], l)
  | [] => ([], [])
  end.

Fixpoint drop_space (l : list ascii) : list ascii :=
  match l with
  | c :: r => if is_space c then drop_space r else l
  | [] => []
  end.

Definition digits_value (ds : list ascii) : Z :=
  fold_left (fun acc c => 10 * acc + digit_val c) ds 0.

(** *** Dates: the format %d/%m/%Y *)

Definition is_leap (y : Z) : bool :=
  ((y mod 4 =? 0) && negb (y mod 100 =? 0)) || (y mod 400 =? 0).

Definition days_in_month (y m : Z) : Z :=
  if m =? 2 then (if is_leap y then 29 else 28)
  else if (m =? 4) || (m =? 6) || (m =? 9) || (m =? 11) then 30
  else 31.

(** datetime.date accepts years 1..9999 and days that exist. *)
Definition valid_date (d : date) : bool :=
  (1 <=? year d) && (year d <=? 9999) &&
  (1 <=? month d) && (month d <=? 12) &&
  (1 <=? day d) && (day d <=? days_in_month (year d) (month d)).

Definition date_leb (a b : date) : bool :=
  (year a <? year b) ||
  ((year a =? year b) &&
   ((month a <? month b) || ((month a =? month b) && (day a <=? day b)))).

(** Midnights representable as a Timestamp of nanosecond resolution, the
    resolution of pandas 1 and 2: 1677-09-22 .. 2262-04-11. *)
Definition in_timestamp_bounds (d : date) : bool :=
  date_leb (Date 1677 9 22) d && date_leb d (Date 2262 4 11).

(** The alternatives of the regular expression that pandas builds for each
    directive, in the order the expression lists them; each returns the
    value read and the remaining input.
      %d  3[0-1] | [1-2]\d | 0[1-9] | [1-9] | " "[1-9]
      %m  1[0-2] | 0[1-9] | [1-9]
      %Y  \d\d\d\d *)
Definition day_alternatives (l : list ascii) : list (Z * list ascii) :=
  (match l with
   | a :: b :: r => if (code a =? 51) && ((code b =? 48) || (code b =? 49))
                    then [(30 + digit_val b, r)] else []
   | _ => [] end) ++
  (match l with
   | a :: b :: r => if ((code a =? 49) || (code a =? 50)) && is_digit b
                    then [(10 * digit_val a + digit_val b, r)] else []
   | _ => [] end) ++
  (match l with
   | a :: b :: r => if (code a =? 48) && is_digit_1_9 b
                    then [(digit_val b, r)] else []
   | _ => [] end) ++
  (match l with
   | a :: r => if is_digit_1_9 a then [(digit_val a, r)] else []
   | _ => [] end) ++
  (match l with
   | a :: b :: r => if (code a =? 32) && is_digit_1_9 b
                    then [(digit_val b, r)] else []
   | _ => [] end).

Definition month_alternatives (l : list ascii) : list (Z * list ascii) :=
  (match l with
   | a :: b :: r => if (code a =? 49) && (48 <=? code b) && (code b <=? 50)
                    then [(10 + digit_val b, r)] else []
   | _ => [] end) ++
  (match l with
   | a :: b :: r => if (code a =? 48) && is_digit_1_9 b
                    then [(digit_val b, r)] else []
   | _ => [] end) ++
  (match l with
   | a :: r => if is_digit_1_9 a then [(digit_val a, r)] else []
   | _ => [] end).

Definition year_alternatives (l : list ascii) : list (Z * list ascii) :=
  match l with
  | a :: b :: c :: d :: r =>
      if is_digit a && is_digit b && is_digit c && is_digit d
      then [(digits_value [a; b; c; d], r)] else []
  | _ => []
  end.

Definition slash (l : list ascii) : list (unit * list ascii) :=
  match l with
  | c :: r => if code c =? 47 then [(tt, r)] else []
  | [] => []
  end.

(** Backtracking: the first alternative whose continuation succeeds. *)
Fixpoint first_match {A B} (alts : list (A * list ascii))
    (k : A -> list ascii -> option B) : option B :=
  match alts with
  | [] => None
  | (a, r) :: rest =>
      match k a r with
      | Some b => Some b
      | None => first_match rest k
      end
  end.

(** The match of the expression for "%d/%m/%Y" at the start of the text:
    the fields read and the unconsumed rest. *)
Definition match_dmy (l : list ascii) : option (date * list ascii) :=
  first_match (day_alternatives l) (fun d l1 =>
  first_match (slash l1) (fun _ l2 =>
  first_match (month_alternatives l2) (fun m l3 =>
  first_match (slash l3) (fun _ l4 =>
  first_match (year_alternatives l4) (fun y l5 =>
  Some (Date y m d, l5)))))).

(** One text under [format='%d/%m/%Y'] (exact matching) in pandas 2: the
    expression must match, nothing may remain, the date must exist and
    must fit a Timestamp.  [None] is the failure pandas reports for the
    value. *)
Definition strptime_dmy (s : string) : option date :=
  match match_dmy (list_ascii_of_string s) with
  | Some (d, []) => if valid_date d && in_timestamp_bounds d then Some d else None
  | _ => None
  end.

(** *** Numbers: pd.to_numeric on text *)

Fixpoint strip_zeros (fuel : nat) (m e : Z) : dec :=
  match fuel with
  | O => Dec m e
  | S n => if (m mod 10 =? 0) then strip_zeros n (m / 10) (e + 1) else Dec m e
  end.

(** Canonical decimal: no trailing zero in the mantissa; zero is 0e0. *)
Definition dec_norm (m e : Z) : dec :=
  if m =? 0 then Dec 0 0
  else strip_zeros (S (Z.to_nat (Z.log2 (Z.abs m)))) m e.

Definition read_sign (l : list ascii) : bool * list ascii :=
  match l with
  | c :: r => if code c =? 45 then (true, r)
              else if code c =? 43 then (false, r)
              else (false, l)
  | [] => (false, [])
  end.

Definition apply_sign (neg : bool) (z : Z) : Z := if neg then - z else z.

(** The number grammar of the pandas tokenizer ([precise_xstrtod] with
    decimal point '.', exponent mark 'E' or 'e', no thousands separator):
    blanks, sign, digits with an optional point (at least one digit),
    optional exponent, blanks, end of text. *)
Definition xstrtod (l : list ascii) : option dec :=
  let l0 := drop_space l in
  let '(neg, l1) := read_sign l0 in
  let '(ip, l2) := span_digits l1 in
  let '(fp, l3) := match l2 with
                   | c :: r => if code c =? 46 then span_digits r else ([], l2)
                   | [] => ([], l2)
                   end in
  if (length ip + length fp =? 0)%nat then None
  else
    let '(ex, l4) :=
      match l3 with
      | c :: r =>
          if (code c =? 69) || (code c =? 101) then
            let '(eneg, r1) := read_sign r in
            let '(ed, r2) := span_digits r1 in
            match ed with
            | [] => (0, l3)
            | _ => (apply_sign eneg (digits_value ed), r2)
            end
          else (0, l3)
      | [] => (0, l3)
      end in
    match drop_space l4 with
    | [] => Some (dec_norm (apply_sign neg (digits_value (ip ++ fp)))
                           (ex - Z.of_nat (length fp)))
    | _ => None
    end.

(** Spellings of infinity accepted when the grammar fails. *)
Definition inf_token (s : string) : option bool :=
  let t := lower s in
  if bool_decide (t ∈ ["inf"; "+inf"; "infinity"; "+infinity"]) then Some false
  else if bool_decide (t ∈ ["-inf"; "-infinity"]) then Some true
  else None.

(** The least magnitude that rounds to an infinite binary64 value. *)
Definition float_limit : Z := 2 ^ 1024 - 2 ^ 970.

(** Whether the decimal is too large for a float; the first test spares
    the comparison for decimals plainly below 10^308. *)
Definition overflows (d : dec) : bool :=
  if exponent d + (Z.log2 (Z.abs (mantissa d)) + 1) / 3 <? 307 then false
  else if 0 <=? exponent d
  then float_limit <=? Z.abs (mantissa d) * 10 ^ exponent d
  else float_limit * 10 ^ (- exponent d) <=? Z.abs (mantissa d).

(** The reader of pandas 2: the empty text and a decimal too large for a
    float are not numbers; the float read is named by the decimal read,
    its rounding to binary64 left aside. *)
Definition parse_number (s : string) : option number :=
  if bool_decide (s = "") then None
  else match xstrtod (list_ascii_of_string s) with
       | Some d => if overflows d then None else Some (Finite d)
       | None => match inf_token s with
                 | Some neg => Some (Infinity neg)
                 | None => None
                 end
       end.


(** *** Python's text for a float, and a sample machine *)

Definition digits_of_Z (z : Z) : string := pretty (Z.abs z).

(** Python's text for a float in plain notation, as in "12.5" and "13.0";
    Python switches to exponent notation outside 1e-4 .. 1e16. *)
Definition str_plain (x : number) : string :=
  match x with
  | Infinity true => "-inf"
  | Infinity false => "inf"
  | Finite (Dec m e) =>
      let sign := if m <? 0 then "-" else "" in
      if 0 <=? e then sign ++ digits_of_Z (m * 10 ^ e) ++ ".0"
      else
        let scale := 10 ^ (- e) in
        let frac := digits_of_Z (Z.abs m mod scale) in
        sign ++ digits_of_Z (Z.abs m / scale) ++ "."
             ++ string_of_list_ascii (repeat "0"%char (Z.to_nat (- e) - String.length frac))
             ++ frac
  end.

(** ISO texts "YYYY-MM-DD" and "YYYY-MM-DD 00:00:00", as the loader stores
    them. *)
Definition iso_date (s : string) : option date :=
  match list_ascii_of_string s with
  | y1 :: y2 :: y3 :: y4 :: h1 :: m1 :: m2 :: h2 :: d1 :: d2 :: rest =>
      let d := Date (digits_value [y1; y2; y3; y4]) (digits_value [m1; m2])
                    (digits_value [d1; d2]) in
      if forallb is_digit [y1; y2; y3; y4; m1; m2; d1; d2]
         && (code h1 =? 45) && (code h2 =? 45)
         && bool_decide (rest = [] \/ rest = list_ascii_of_string " 00:00:00")
         && valid_date d && in_timestamp_bounds d
      then Some d else None
  | _ => None
  end.

Definition iso_datetime_cell (c : cell) : cell :=
  match c with
  | CStr s => match iso_date s with Some d => CDate d | None => CNull end
  | CDate d => CDate d
  | _ => CNull
  end.

(** The sample library. *)
Definition pandas2 : pandas :=
  {| str_of_number := str_plain;
     strptime := strptime_dmy;
     read_number := parse_number |}.

(** A machine on which nothing fails: every URL answers 200 with an empty
    body, which read_csv refuses. *)
Definition quiet_env : environment :=
  {| env_pandas := pandas2;
     http_get := fun u => Reply (Response 200 "OK" u "");
     read_csv := fun _ => Fails (EmptyDataError "No columns to parse from file");
     connect_fault := fun _ => None;
     write_fault := fun _ _ => None;
     sqlite_text_of_number := str_plain;
     read_fault := None;
     script_dir := "/srv/tibc";
     infer_datetime := fun _ => iso_datetime_cell;
     chart_fault := fun _ _ => None |}.

Definition empty_world : world := World ∅ [].

(** ** Sample inputs *)

Definition rates_sample : DataFrame :=
  Frame 3 [("RESOLUCION", [CStr "R-1"; CStr "R-2"; CStr "R-3"]);
           ("INTERES_BANCARIO_CORRIENTE", [CStr "12.5%"; CStr "19,21%"; CStr "n.d."])].

Definition fechas_sample : DataFrame :=
  Frame 2 [("FECHA_RESOLUCION", [CStr "22/12/2014"; CStr "5/1/2015"]);
           ("MODALIDAD", [CStr "CONSUMO"; CStr "MICROCREDITO"])].

(** The scenario of three rows, the second with an empty VIGENCIA_HASTA. *)
Definition vigencia_sample : DataFrame :=
  Frame 3 [("RESOLUCION", [CStr "R-1"; CStr "R-2"; CStr "R-3"]);
           ("VIGENCIA_DESDE", [CStr "01/01/2015"; CStr "01/04/2015"; CStr "01/07/2015"]);
           ("VIGENCIA_HASTA", [CStr "31/03/2015"; CStr ""; CStr "30/09/2015"])].

Definition headers_only : DataFrame :=
  Frame 0 [("RESOLUCION", []); ("FECHA_RESOLUCION", []);
           ("INTERES_BANCARIO_CORRIENTE", [])].

(** A server that answers 300 Multiple Choices with a CSV body. *)
Definition redirect_body : string := "RESOLUCION,MODALIDAD
1,CONSUMO
".

Definition redirect_table : DataFrame :=
  Frame 1 [("RESOLUCION", [CNum (Finite (Dec 1 0))]); ("MODALIDAD", [CStr "CONSUMO"])].

Definition redirect_env : environment :=
  {| env_pandas := pandas2;
     http_get := fun u => Reply (Response 300 "Multiple Choices" u redirect_body);
     read_csv := fun body => if bool_decide (body = redirect_body)
                             then Reply redirect_table else Fails (EmptyDataError "No columns to parse from file");
     connect_fault := fun _ => None;
     write_fault := fun _ _ => None;
     sqlite_text_of_number := str_plain;
     read_fault := None;
     script_dir := "/srv/tibc";
     infer_datetime := fun _ => iso_datetime_cell;
     chart_fault := fun _ _ => None |}.

(** A transformed table, ready to be loaded. *)
Definition loaded_sample : DataFrame :=
  Frame 2 [("resolucion_id", [CStr "R-1"; CStr "R-2"]);
           ("fecha_resolucion", [CDate (Date 2014 12 22); CDate (Date 2015 3 27)]);
           ("vigencia_desde", [CDate (Date 2015 1 1); CDate (Date 2015 4 1)]);
           ("vigencia_hasta", [CDate (Date 2015 3 31); CNull]);
           ("tasa_interes_ea", [CNum (Finite (Dec 1921 (-2))); CNum (Finite (Dec 1937 (-2)))]);
           ("tipo_credito_nombre", [CStr "CONSUMO Y ORDINARIO"; CStr "CONSUMO Y ORDINARIO"])].

(** A database file that already holds three rows under the table name. *)
Definition stale_world : world :=
  World {[ "tibc_data.db" :=
           {[ "tasas_interes_bancario" :=
              Table 3 [("resolucion_id", [SqlText "R-7"; SqlText "R-8"; SqlText "R-9"])] ]} ]}
        [].

(** A machine whose storage engine fails during the write. *)
Definition failing_env : environment :=
  {| env_pandas := pandas2;
     http_get := fun u => Reply (Response 200 "OK" u "");
     read_csv := fun _ => Fails (EmptyDataError "No columns to parse from file");
     connect_fault := fun _ => None;
     write_fault := fun _ _ => Some (SqliteError "disk I/O error", fun db => db);
     sqlite_text_of_number := str_plain;
     read_fault := None;
     script_dir := "/srv/tibc";
     infer_datetime := fun _ => iso_datetime_cell;
     chart_fault := fun _ _ => None |}.

(** The file the visualization script looks for, holding a table without
    the two vigencia columns. *)
Definition partial_world : world :=
  World {[ "/srv/tibc/tibc_data.db" :=
           {[ "tasas_interes_bancario" :=
              Table 1 [("fecha_resolucion", [SqlText "2014-12-22 00:00:00"]);
                       ("tasa_interes_ea", [SqlReal (Finite (Dec 1921 (-2)))]);
                       ("tipo_credito_nombre", [SqlText "CONSUMO Y ORDINARIO"])] ]} ]}
        [].

(** The same file with the table as the loader writes it. *)
Definition loaded_world : world :=
  World {[ "/srv/tibc/tibc_data.db" :=
           {[ "tasas_interes_bancario" := sql_of_frame quiet_env loaded_sample ]} ]}
        [].

(** The file with the table present and no row in it. *)
Definition no_rows_world : world :=
  World {[ "/srv/tibc/tibc_data.db" :=
           {[ "tasas_interes_bancario" :=
              Table 0 [("fecha_resolucion", []); ("tasa_interes_ea", [])] ]} ]}
        [].

(** A table in which VIGENCIA_HASTA occurs under both spellings, with a
    value that is no date. *)
Definition repeated_unparsed_sample : DataFrame :=
  Frame 1 [("VIGENCIA_HASTA", [CStr "sin fecha"]);
           ("vigencia_hasta", [CStr "31/03/2015"])].

(** A table in which VIGENCIA_DESDE occurs under both spellings. *)
Definition repeated_label_sample : DataFrame :=
  Frame 1 [("VIGENCIA_DESDE", [CStr "01/01/2015"]);
           ("vigencia_desde", [CStr "01/04/2015"]);
           ("MODALIDAD", [CStr "CONSUMO"])].

(** The four labels that [transform_data] converts. *)
Definition converted_labels : list string :=
  ["fecha_resolucion"; "vigencia_desde"; "vigencia_hasta"; "tasa_interes_ea"].

(** A server that does not know the address. *)
Definition not_found_env : environment :=
  {| env_pandas := pandas2;
     http_get := fun u => Reply (Response 404 "Not Found" u "");
     read_csv := fun _ => Fails (EmptyDataError "No columns to parse from file");
     connect_fault := fun _ => None;
     write_fault := fun _ _ => None;
     sqlite_text_of_number := str_plain;
     read_fault := None;
     script_dir := "/srv/tibc";
     infer_datetime := fun _ => iso_datetime_cell;
     chart_fault := fun _ _ => None |}.

(** ** Shapes of cells and events *)

Definition is_date_or_null (c : cell) : bool :=
  match c with CDate _ | CNull => true | _ => false end.

Definition is_number (c : cell) : bool :=
  match c with CNum _ => true | _ => false end.

Definition is_number_or_null (c : cell) : bool :=
  match c with CNum _ | CNull => true | _ => false end.

Definition is_text_or_null (c : cell) : bool :=
  match c with CStr _ | CNull => true | _ => false end.

(** A column as the query returns it after [to_sql] stored it. *)
Definition read_back (env : environment) (col : list cell) : list cell :=
  map (fun c => cell_of_sql (sql_of_cell env (sql_type_of col) c)) col.

(** A Timestamp comes back as the text SQLite kept. *)
Definition date_as_stored (c : cell) : cell :=
  match c with
  | CDate d => CStr (str_of_date d ++ " 00:00:00")
  | _ => c
  end.

Definition is_HttpGet (ev : event) : bool :=
  match ev with HttpGet _ => true | _ => false end.

Definition is_SaveFig (ev : event) : bool :=
  match ev with SaveFig _ => true | _ => false end.

(** The label a source column gets from [column_mapping]. *)
Definition canonical (label : string) : string :=
  default label (column_mapping !! label).

(** ** More sample inputs *)

(** A table with the six columns of the published dataset and one column
    the mapping does not know. *)
Definition dataset_sample : DataFrame :=
  Frame 2 [("RESOLUCION", [CStr "2359"; CStr "0369"]);
           ("FECHA_RESOLUCION", [CStr "22/12/2014"; CStr "27/03/2015"]);
           ("VIGENCIA_DESDE", [CStr "01/01/2015"; CStr "01/04/2015"]);
           ("VIGENCIA_HASTA", [CStr "31/03/2015"; CStr ""]);
           ("INTERES_BANCARIO_CORRIENTE", [CStr "19.21%"; CStr "19.37%"]);
           ("MODALIDAD", [CStr "CONSUMO Y ORDINARIO"; CStr "CONSUMO Y ORDINARIO"]);
           ("FUENTE", [CStr "SFC"; CNull])].

(** A machine on which nothing fails and the URL serves that table. *)
Definition dataset_env : environment :=
  {| env_pandas := pandas2;
     http_get := fun u => Reply (Response 200 "OK" u "csv");
     read_csv := fun _ => Reply dataset_sample;
     connect_fault := fun _ => None;
     write_fault := fun _ _ => None;
     sqlite_text_of_number := str_plain;
     read_fault := None;
     script_dir := "/srv/tibc";
     infer_datetime := fun _ => iso_datetime_cell;
     chart_fault := fun _ _ => None |}.

(** A machine whose storage engine cannot be read. *)
Definition unreadable_env : environment :=
  {| env_pandas := pandas2;
     http_get := fun u => Reply (Response 200 "OK" u "");
     read_csv := fun _ => Fails (EmptyDataError "No columns to parse from file");
     connect_fault := fun _ => None;
     write_fault := fun _ _ => None;
     sqlite_text_of_number := str_plain;
     read_fault := Some (SqliteError "database disk image is malformed");
     script_dir := "/srv/tibc";
     infer_datetime := fun _ => iso_datetime_cell;
     chart_fault := fun _ _ => None |}.

(** ** Rows kept by dropna, events of a run *)

(** For each row, whether every column carrying one of the labels holds a
    value there: the mask [dropna] selects by. *)
Definition dropna_mask (subset : list string) (df : DataFrame) : list bool :=
  map (fun i => forallb (fun c => negb (isnull (nth i (snd c) CNull)))
                        (List.filter (fun c => bool_decide (fst c ∈ subset)) (columns df)))
      (seq 0 (nrows df)).

(** The events a run added to the trace it started from. *)
Definition events_since (before after : world) : list event :=
  drop (length (trace before)) (trace after).

(** Events that neither open nor close a connection. *)
Definition is_output (ev : event) : bool :=
  match ev with Print _ | SaveFig _ => true | _ => false end.

(** Whether the script's query can return a table: no read failure and
    the table is in the database. *)
Definition readable (env : environment) (db : gmap string sql_table) : bool :=
  match read_fault env, db !! TABLE_NAME with
  | None, Some _ => true
  | _, _ => false
  end.
(** ** Facts about frames *)

Lemma rmap_length {A B} (f : A -> result B) l l' :
  rmap f l = Ok l' -> length l' = length l.
Proof.
  revert l'. induction l as [|x xs IH]; simpl; intros l' H.
  - injection H as <-. reflexivity.
  - destruct (f x) as [y|e]; simpl in H; [|discriminate].
    destruct (rmap f xs) as [ys|e]; simpl in H; [|discriminate].
    injection H as <-. simpl. f_equal. apply IH. reflexivity.
Qed.

Lemma rmap_raise {A B} (f : A -> result B) l e :
  rmap f l = Raise e -> exists x, In x l /\ f x = Raise e.
Proof.
  induction l as [|x xs IH]; simpl; intros H; [discriminate|].
  destruct (f x) as [y|e0] eqn:Hx; simpl in H.
  - destruct (rmap f xs) as [ys|e1]; simpl in H; [discriminate|].
    injection H as ->. destruct IH as [z [Hz1 Hz2]]; [reflexivity|].
    exists z. split; [right; assumption | assumption].
  - injection H as ->. exists x. split; [left; reflexivity | assumption].
Qed.

Lemma to_datetime_cell_raises lib mode c e :
  to_datetime_cell lib mode c = Raise e -> is_Exception e = true.
Proof.
  destruct c as [s|x|d|]; simpl; try discriminate.
  - destruct (is_nat_string s); [discriminate|].
    destruct (strptime lib s); [discriminate|].
    destruct mode; simpl; [|discriminate]. intros [= <-]. reflexivity.
  - destruct mode; simpl; [|discriminate]. intros [= <-]. reflexivity.
Qed.

Lemma to_datetime_cell_coerce lib c :
  exists c', to_datetime_cell lib errors_coerce c = Ok c'.
Proof.
  destruct c as [s|x|d|]; simpl; eauto.
  destruct (is_nat_string s); eauto.
  destruct (strptime lib s); simpl; eauto.
Qed.

Lemma filter_label_setcol l l' data cols :
  List.filter (has_label l)
    (map (fun c : string * list cell =>
            if has_label l' c then (fst c, data) else c) cols)
  = if bool_decide (l = l')
    then map (fun c => (fst c, data)) (List.filter (has_label l) cols)
    else List.filter (has_label l) cols.
Proof.
  induction cols as [|[n d] cs IH]; simpl.
  - destruct (bool_decide (l = l')); reflexivity.
  - unfold has_label in *. cbn [fst snd] in *.
    destruct (decide (n = l')) as [En|En].
    + rewrite (bool_decide_eq_true_2 _ En). cbn [fst snd]. rewrite IH.
      destruct (decide (l = l')) as [El|El].
      * rewrite (bool_decide_eq_true_2 _ El).
        rewrite bool_decide_eq_true_2 by congruence. reflexivity.
      * rewrite (bool_decide_eq_false_2 _ El).
        rewrite bool_decide_eq_false_2 by congruence. reflexivity.
    + rewrite (bool_decide_eq_false_2 _ En). cbn [fst snd]. rewrite IH.
      destruct (decide (l = l')) as [El|El].
      * rewrite (bool_decide_eq_true_2 _ El).
        rewrite bool_decide_eq_false_2 by congruence. reflexivity.
      * rewrite (bool_decide_eq_false_2 _ El).
        destruct (bool_decide (n = l)); reflexivity.
Qed.

Lemma existsb_filter_nil {A} (p : A -> bool) l :
  existsb p l = false -> List.filter p l = [].
Proof.
  induction l as [|x xs IH]; simpl; [reflexivity|].
  destruct (p x); simpl; [discriminate|]. exact IH.
Qed.

Lemma filter_nonempty_existsb {A} (p : A -> bool) l x xs :
  List.filter p l = x :: xs -> existsb p l = true.
Proof.
  intros H. destruct (existsb p l) eqn:E; [reflexivity|].
  rewrite (existsb_filter_nil _ _ E) in H. discriminate.
Qed.

Lemma nrows_setitem df l data : nrows (setitem df l data) = nrows df.
Proof. unfold setitem. destruct (existsb _ _); reflexivity. Qed.

Lemma labels_setitem_present df l data col :
  column df l = Some col ->
  map fst (columns (setitem df l data)) = map fst (columns df).
Proof.
  unfold column, getitem, setitem. intros H.
  destruct (List.filter (has_label l) (columns df)) as [|c [|c' cs]] eqn:F;
    try discriminate.
  rewrite (filter_nonempty_existsb _ _ _ _ F). simpl.
  rewrite map_map. apply map_ext. intros a. destruct (has_label l a); reflexivity.
Qed.

Lemma getitem_setitem_other df l l' data :
  l <> l' -> getitem (setitem df l' data) l = getitem df l.
Proof.
  intros Hne. unfold getitem, setitem.
  destruct (existsb (has_label l') (columns df)); simpl.
  - rewrite filter_label_setcol. rewrite bool_decide_eq_false_2 by assumption.
    reflexivity.
  - rewrite List.filter_app. simpl. unfold has_label at 2. simpl.
    rewrite bool_decide_eq_false_2 by congruence. rewrite app_nil_r. reflexivity.
Qed.

Lemma column_setitem_other df l l' data :
  l <> l' -> column (setitem df l' data) l = column df l.
Proof. intros H. unfold column. rewrite getitem_setitem_other by assumption. reflexivity. Qed.

Lemma column_setitem_same df l data col :
  column df l = Some col -> column (setitem df l data) l = Some data.
Proof.
  unfold column, getitem, setitem. intros H.
  destruct (List.filter (has_label l) (columns df)) as [|c [|c' cs]] eqn:F;
    try discriminate.
  rewrite (filter_nonempty_existsb _ _ _ _ F). simpl.
  rewrite filter_label_setcol, bool_decide_eq_true_2 by reflexivity.
  rewrite F. reflexivity.
Qed.

Lemma setitem_setitem df l a b col :
  column df l = Some col ->
  setitem (setitem df l a) l b = setitem df l b.
Proof.
  intros H. pose proof (column_setitem_same df l a col H) as H'.
  unfold column, getitem in H, H'.
  destruct (List.filter (has_label l) (columns df)) as [|c [|c' cs]] eqn:F;
    try discriminate.
  destruct (List.filter (has_label l) (columns (setitem df l a)))
    as [|d [|d' ds]] eqn:F'; try discriminate.
  unfold setitem at 1. rewrite (filter_nonempty_existsb _ _ _ _ F').
  unfold setitem. rewrite (filter_nonempty_existsb _ _ _ _ F). simpl.
  f_equal. rewrite map_map. apply map_ext. intros x.
  destruct (has_label l x) eqn:E; simpl.
  - unfold has_label in *. simpl. rewrite E. reflexivity.
  - rewrite E. reflexivity.
Qed.

Lemma well_formed_setitem df l data :
  well_formed df -> length data = nrows df -> well_formed (setitem df l data).
Proof.
  unfold well_formed, setitem. intros W L.
  destruct (existsb (has_label l) (columns df)); simpl.
  - apply Forall_map. eapply Forall_impl; [exact W|].
    intros c Hc. simpl. destruct (has_label l c); simpl; congruence.
  - apply Forall_app. split; [exact W|]. constructor; [exact L|constructor].
Qed.

Lemma getitem_raises df l e :
  getitem df l = Raise e -> is_Exception e = true.
Proof.
  unfold getitem.
  destruct (List.filter (has_label l) (columns df)) as [|c [|c' cs]];
    intros H; try discriminate.
  injection H as <-. reflexivity.
Qed.

Lemma column_update_other l l' f df :
  l <> l' -> column (update_column l' f df) l = column df l.
Proof.
  intros H. unfold update_column.
  destruct (column df l') as [col|]; [|reflexivity].
  destruct (f col); [|reflexivity].
  apply column_setitem_other. assumption.
Qed.

Lemma column_update_same l f df col :
  column df l = Some col ->
  column (update_column l f df) l = Some (default col (f col)).
Proof.
  intros H. unfold update_column. rewrite H.
  destruct (f col) as [data|]; simpl; [|assumption].
  eapply column_setitem_same. eassumption.
Qed.

Lemma nrows_update l f df : nrows (update_column l f df) = nrows df.
Proof.
  unfold update_column. destruct (column df l) as [col|]; [|reflexivity].
  destruct (f col); [|reflexivity]. apply nrows_setitem.
Qed.

Lemma labels_update l f df :
  map fst (columns (update_column l f df)) = map fst (columns df).
Proof.
  unfold update_column. destruct (column df l) as [col|] eqn:C; [|reflexivity].
  destruct (f col); [|reflexivity]. eapply labels_setitem_present. eassumption.
Qed.

Lemma column_length df l col :
  well_formed df -> column df l = Some col -> length col = nrows df.
Proof.
  unfold well_formed, column, getitem. intros W H.
  destruct (List.filter (has_label l) (columns df)) as [|c [|c' cs]] eqn:F;
    try discriminate.
  injection H as <-.
  assert (In c (List.filter (has_label l) (columns df))) as Hin
    by (rewrite F; left; reflexivity).
  apply List.filter_In in Hin. destruct Hin as [Hin _].
  rewrite Forall_forall in W. apply W. apply list_elem_of_In. exact Hin.
Qed.

Lemma well_formed_update l f df :
  (forall col data, f col = Some data -> length data = length col) ->
  well_formed df -> well_formed (update_column l f df).
Proof.
  intros Hf W. unfold update_column.
  destruct (column df l) as [col|] eqn:C; [|exact W].
  destruct (f col) as [data|] eqn:F; [|exact W].
  apply well_formed_setitem; [exact W|].
  rewrite (Hf _ _ F). eapply column_length; eassumption.
Qed.

Lemma nrows_rename m df : nrows (rename m df) = nrows df.
Proof. reflexivity. Qed.

Lemma well_formed_rename m df : well_formed df -> well_formed (rename m df).
Proof.
  unfold well_formed, rename. simpl. intros W.
  apply Forall_map. eapply Forall_impl; [exact W|]. intros c Hc. exact Hc.
Qed.


Lemma block_datetime lib mode label df :
  try_except
    (assign label (fun d => rbind (getitem d label) (to_datetime lib mode)))
    except_Exception_pass df
  = (update_column label (convert_dates lib mode) df, Ok tt).
Proof.
  unfold try_except, assign, update_column, column, convert_dates.
  destruct (getitem df label) as [[l|cs]|e] eqn:G; simpl.
  - destruct (rmap (to_datetime_cell lib mode) l) as [data|e] eqn:R; simpl;
      [reflexivity|].
    apply rmap_raise in R. destruct R as [x [_ Hx]].
    rewrite (to_datetime_cell_raises _ _ _ _ Hx). reflexivity.
  - reflexivity.
  - rewrite (getitem_raises _ _ _ G). reflexivity.
Qed.

Section TransformFacts.

Variable lib : pandas.


Lemma block_rate df :
  try_except
    (assign "tasa_interes_ea" (fun d =>
       rbind (getitem d "tasa_interes_ea") (fun s =>
       str_replace_percent (astype_str lib s))) >>
     assign "tasa_interes_ea" (fun d =>
       rbind (getitem d "tasa_interes_ea") (to_numeric lib)))%py
    except_Exception_pass df
  = (update_column "tasa_interes_ea" (convert_rates lib) df, Ok tt).
Proof.
  unfold try_except, bind, assign at 1, update_column, convert_rates.
  destruct (column df "tasa_interes_ea") as [col|] eqn:C.
  - assert (getitem df "tasa_interes_ea" = Ok (Series col)) as G.
    { unfold column in C. destruct (getitem df "tasa_interes_ea") as [[l|cs]|e];
        congruence. }
    rewrite G. simpl. unfold assign.
    pose proof (column_setitem_same df "tasa_interes_ea"
      (map (fun c => match c with
                     | CStr s => CStr (remove_char "%"%char s)
                     | _ => CNull end)
           (map (fun c => CStr (str_of_cell lib c)) col)) col C) as C'.
    unfold column in C'.
    destruct (getitem (setitem df "tasa_interes_ea" _) "tasa_interes_ea")
      as [[l|cs]|e] eqn:G'; try discriminate.
    injection C' as ->. simpl.
    rewrite (setitem_setitem _ _ _ _ col C).
    rewrite !map_map. reflexivity.
  - unfold column in C.
    destruct (getitem df "tasa_interes_ea") as [[l|cs]|e] eqn:G;
      try discriminate; simpl.
    + reflexivity.
    + rewrite (getitem_raises _ _ _ G). reflexivity.
Qed.


Lemma transform_data_nonempty df :
  is_empty df = false ->
  transform_data lib df = Ok (transformed lib df).
Proof.
  intros E. unfold transform_data, convert_columns, transformed. rewrite E.
  unfold bind at 1. rewrite block_datetime.
  unfold bind at 1. rewrite block_datetime.
  unfold bind at 1. rewrite block_datetime.
  rewrite block_rate. reflexivity.
Qed.

End TransformFacts.

(** ** The date and rate conversions, cell by cell *)

Lemma to_datetime_cell_coerce_eq lib c :
  to_datetime_cell lib errors_coerce c = Ok (coerce_date lib c).
Proof.
  destruct c as [s|x|d|]; simpl; try reflexivity.
  destruct (is_nat_string s); [reflexivity|].
  destruct (strptime lib s); reflexivity.
Qed.

Lemma to_datetime_cell_strict_ok lib c :
  date_acceptable lib c = true ->
  to_datetime_cell lib errors_raise c = Ok (coerce_date lib c).
Proof.
  unfold date_acceptable. destruct c as [s|x|d|]; simpl; try reflexivity;
    try discriminate.
  destruct (is_nat_string s); [reflexivity|]. simpl.
  rewrite orb_false_r. intros H. apply bool_decide_eq_true_1 in H.
  destruct H as [d ->]. reflexivity.
Qed.

Lemma to_datetime_cell_strict_fails lib c :
  date_acceptable lib c = false ->
  exists e, to_datetime_cell lib errors_raise c = Raise e.
Proof.
  unfold date_acceptable. destruct c as [s|x|d|]; simpl; try discriminate.
  - destruct (is_nat_string s); simpl; [discriminate|].
    rewrite orb_false_r. intros H. apply bool_decide_eq_false_1 in H.
    destruct (strptime lib s) as [d|] eqn:P.
    + exfalso. apply H. eauto.
    + simpl. eauto.
  - intros _. eauto.
Qed.

Lemma convert_dates_coerce lib col :
  convert_dates lib errors_coerce col = Some (map (coerce_date lib) col).
Proof.
  unfold convert_dates. induction col as [|c cs IH]; simpl; [reflexivity|].
  rewrite to_datetime_cell_coerce_eq. simpl.
  destruct (rmap (to_datetime_cell lib errors_coerce) cs); simpl in *; congruence.
Qed.

Lemma convert_dates_strict_ok lib col :
  forallb (date_acceptable lib) col = true ->
  convert_dates lib errors_raise col = Some (map (coerce_date lib) col).
Proof.
  unfold convert_dates. induction col as [|c cs IH]; simpl; [reflexivity|].
  intros H. apply andb_true_iff in H. destruct H as [Hc Hcs].
  rewrite (to_datetime_cell_strict_ok _ _ Hc). simpl.
  specialize (IH Hcs).
  destruct (rmap (to_datetime_cell lib errors_raise) cs); simpl in *; congruence.
Qed.

Lemma convert_dates_strict_fails lib col :
  forallb (date_acceptable lib) col = false ->
  convert_dates lib errors_raise col = None.
Proof.
  unfold convert_dates. induction col as [|c cs IH]; simpl; [discriminate|].
  intros H. apply andb_false_iff in H.
  destruct (date_acceptable lib c) eqn:Hc.
  - destruct H as [H|H]; [discriminate|].
    rewrite (to_datetime_cell_strict_ok _ _ Hc). simpl.
    specialize (IH H).
    destruct (rmap (to_datetime_cell lib errors_raise) cs); simpl in *; congruence.
  - destruct (to_datetime_cell_strict_fails _ _ Hc) as [e ->]. reflexivity.
Qed.

Lemma convert_dates_length lib mode col data :
  convert_dates lib mode col = Some data -> length data = length col.
Proof.
  unfold convert_dates. intros H.
  destruct (rmap (to_datetime_cell lib mode) col) as [l|e] eqn:R; [|discriminate].
  injection H as <-. eapply rmap_length. eassumption.
Qed.

Lemma matches_not_null lib c :
  date_matches lib c = true -> isnull (coerce_date lib c) = false.
Proof.
  destruct c as [s|x|d|]; simpl; try discriminate; try reflexivity.
  destruct (is_nat_string s); simpl; [discriminate|].
  intros H. apply bool_decide_eq_true_1 in H. destruct H as [d ->]. reflexivity.
Qed.

Lemma matches_acceptable lib col :
  forallb (date_matches lib) col = true -> forallb (date_acceptable lib) col = true.
Proof.
  induction col as [|c cs IH]; simpl; [reflexivity|].
  intros H. apply andb_true_iff in H. destruct H as [Hc Hcs].
  unfold date_acceptable at 1. rewrite Hc, IH by assumption. reflexivity.
Qed.

(** ** Where each column of the transformed table comes from *)

Section TransformedColumns.

Variable lib : pandas.
Variable df : DataFrame.

Let renamed := rename column_mapping df.

Lemma transformed_fecha col :
  column renamed "fecha_resolucion" = Some col ->
  column (transformed lib df) "fecha_resolucion"
  = Some (if forallb (date_acceptable lib) col then map (coerce_date lib) col else col).
Proof.
  intros C. unfold transformed.
  rewrite !column_update_other by discriminate.
  rewrite (column_update_same _ _ _ col C). f_equal.
  destruct (forallb (date_acceptable lib) col) eqn:A.
  - rewrite (convert_dates_strict_ok _ _ A). reflexivity.
  - rewrite (convert_dates_strict_fails _ _ A). reflexivity.
Qed.

Lemma transformed_vigencia_desde col :
  column renamed "vigencia_desde" = Some col ->
  column (transformed lib df) "vigencia_desde" = Some (map (coerce_date lib) col).
Proof.
  intros C. unfold transformed.
  rewrite !column_update_other by discriminate.
  erewrite column_update_same.
  - rewrite convert_dates_coerce. reflexivity.
  - rewrite column_update_other by discriminate. exact C.
Qed.

Lemma transformed_vigencia_hasta col :
  column renamed "vigencia_hasta" = Some col ->
  column (transformed lib df) "vigencia_hasta" = Some (map (coerce_date lib) col).
Proof.
  intros C. unfold transformed.
  rewrite column_update_other by discriminate.
  erewrite column_update_same.
  - rewrite convert_dates_coerce. reflexivity.
  - rewrite !column_update_other by discriminate. exact C.
Qed.

Lemma transformed_rate col :
  column renamed "tasa_interes_ea" = Some col ->
  column (transformed lib df) "tasa_interes_ea" = Some (map (rate_of_cell lib) col).
Proof.
  intros C. unfold transformed.
  erewrite column_update_same.
  - reflexivity.
  - rewrite !column_update_other by discriminate. exact C.
Qed.

Lemma nrows_transformed : nrows (transformed lib df) = nrows df.
Proof. unfold transformed. rewrite !nrows_update. reflexivity. Qed.

Lemma labels_transformed :
  map fst (columns (transformed lib df)) = map fst (columns renamed).
Proof. unfold transformed. rewrite !labels_update. reflexivity. Qed.

Lemma well_formed_transformed :
  well_formed df -> well_formed (transformed lib df).
Proof.
  intros W. unfold transformed.
  apply well_formed_update.
  { intros col data [= <-]. apply length_map. }
  repeat (apply well_formed_update; [apply convert_dates_length|]).
  apply well_formed_rename. exact W.
Qed.

End TransformedColumns.

(** ** The two readers on sample texts *)

Example strptime_two_digit_fields :
  strptime_dmy "22/12/2014" = Some (Date 2014 12 22).
Proof. vm_compute. reflexivity. Qed.

Example strptime_one_digit_fields :
  strptime_dmy "1/2/2014" = Some (Date 2014 2 1).
Proof. vm_compute. reflexivity. Qed.

Example strptime_no_such_day : strptime_dmy "31/02/2014" = None.
Proof. vm_compute. reflexivity. Qed.

Example strptime_short_year : strptime_dmy "22/12/14" = None.
Proof. vm_compute. reflexivity. Qed.

Example strptime_trailing_text : strptime_dmy "22/12/2014 " = None.
Proof. vm_compute. reflexivity. Qed.

Example parse_number_point : parse_number "12.5" = Some (Finite (Dec 125 (-1))).
Proof. vm_compute. reflexivity. Qed.

Example parse_number_comma : parse_number "12,5" = None.
Proof. vm_compute. reflexivity. Qed.

Example parse_number_exponent :
  parse_number " -1.50e3 " = Some (Finite (Dec (-15) 2)).
Proof. vm_compute. reflexivity. Qed.

Example parse_number_nan_text : parse_number "nan" = None.
Proof. vm_compute. reflexivity. Qed.

Example parse_number_infinity : parse_number "-Infinity" = Some (Infinity true).
Proof. vm_compute. reflexivity. Qed.

Example parse_number_too_large : parse_number "1e400" = None.
Proof. vm_compute. reflexivity. Qed.

Example parse_number_largest :
  parse_number "1.7976931348623157e308"
  = Some (Finite (Dec 17976931348623157 292)).
Proof. vm_compute. reflexivity. Qed.

(** ** Labels the conversions leave alone *)

Lemma update_column_absent l f df :
  column df l = None -> update_column l f df = df.
Proof. intros H. unfold update_column. rewrite H. reflexivity. Qed.

Lemma getitem_update_keep l l' f df :
  l <> l' \/ column df l = None ->
  getitem (update_column l' f df) l = getitem df l.
Proof.
  intros H. destruct (decide (l = l')) as [->|Hne].
  - destruct H as [H|H]; [contradiction|].
    rewrite (update_column_absent _ _ _ H). reflexivity.
  - unfold update_column. destruct (column df l') as [col|]; [|reflexivity].
    destruct (f col); [|reflexivity].
    apply getitem_setitem_other. exact Hne.
Qed.

Lemma column_of_getitem df df' l :
  getitem df' l = getitem df l -> column df' l = column df l.
Proof. intros H. unfold column. rewrite H. reflexivity. Qed.

Lemma getitem_transformed_keep lib df l :
  ~ In l converted_labels \/ column (rename column_mapping df) l = None ->
  getitem (transformed lib df) l = getitem (rename column_mapping df) l.
Proof.
  intros H. unfold transformed.
  set (d0 := rename column_mapping df) in *.
  set (d1 := update_column "fecha_resolucion" (convert_dates lib errors_raise) d0).
  set (d2 := update_column "vigencia_desde" (convert_dates lib errors_coerce) d1).
  set (d3 := update_column "vigencia_hasta" (convert_dates lib errors_coerce) d2).
  assert (forall l', In l' converted_labels -> forall d,
            getitem d l = getitem d0 l -> l <> l' \/ column d l = None) as K.
  { intros l' Hin d Hd. destruct H as [H|H].
    - left. intros ->. contradiction.
    - right. rewrite (column_of_getitem _ _ _ Hd). exact H. }
  assert (getitem d1 l = getitem d0 l) as E1.
  { apply getitem_update_keep. apply K; [simpl; auto | reflexivity]. }
  assert (getitem d2 l = getitem d0 l) as E2.
  { unfold d2. rewrite getitem_update_keep; [exact E1|].
    apply K; [simpl; auto | exact E1]. }
  assert (getitem d3 l = getitem d0 l) as E3.
  { unfold d3. rewrite getitem_update_keep; [exact E2|].
    apply K; [simpl; auto | exact E2]. }
  rewrite getitem_update_keep; [exact E3|].
  apply K; [simpl; auto | exact E3].
Qed.


Lemma remove_char_gone x s :
  ~ In x (list_ascii_of_string (remove_char x s)).
Proof.
  unfold remove_char. rewrite list_ascii_of_string_of_list_ascii.
  intros H. apply list_elem_of_In, list_elem_of_filter in H.
  destruct H as [H _]. apply H. reflexivity.
Qed.

Lemma map_lookup_some {A B} (f : A -> B) (l : list A) i x :
  l !! i = Some x -> map f l !! i = Some (f x).
Proof. intros H. change (map f l) with (f <$> l). rewrite list_lookup_fmap, H. reflexivity. Qed.

(** * The transformer *)

Lemma rate_of_text lib s :
  rate_of_cell lib (CStr s)
  = match read_number lib (remove_char "%"%char s) with
    | Some x => CNum x
    | None => CNull
    end.
Proof. reflexivity. Qed.

(** C1 (amended).  For a non-empty table with one rate column, the
    transformer does not abort: in every row it takes the text of the cell,
    removes every '%' character, wherever it stands, and hands the rest to
    pandas' to_numeric with errors='coerce'.  A rest that pandas reads as a
    number gives that number, so "12.5%" gives what "12.5" reads as; a rest
    that pandas does not read as a number gives an absent value, so "12,5%"
    gives an absent value as soon as "12,5" is no number for pandas. *)
Theorem rate_conversion (lib : pandas) (df : DataFrame) (col : list cell) :
  is_empty df = false ->
  column (rename column_mapping df) "tasa_interes_ea" = Some col ->
  exists out outcol,
    transform_data lib df = Ok out /\
    column out "tasa_interes_ea" = Some outcol /\
    length outcol = length col /\
    (forall i c, col !! i = Some c -> outcol !! i = Some (rate_of_cell lib c)) /\
    (forall i s x, col !! i = Some (CStr s) ->
                   read_number lib (remove_char "%"%char s) = Some x ->
                   outcol !! i = Some (CNum x)) /\
    (forall i s, col !! i = Some (CStr s) ->
                 read_number lib (remove_char "%"%char s) = None ->
                 outcol !! i = Some CNull) /\
    (forall s, ~ In "%"%char (list_ascii_of_string (remove_char "%"%char s))) /\
    (forall i x, col !! i = Some (CStr "12.5%") ->
                 read_number lib "12.5" = Some x ->
                 outcol !! i = Some (CNum x)) /\
    (forall i, col !! i = Some (CStr "12,5%") ->
               read_number lib "12,5" = None ->
               outcol !! i = Some CNull).
Proof.
  intros E C.
  exists (transformed lib df), (map (rate_of_cell lib) col).
  split; [apply transform_data_nonempty; exact E|].
  split; [apply transformed_rate; exact C|].
  split; [apply length_map|].
  split; [intros i c H; apply map_lookup_some; exact H|].
  split.
  { intros i s x H R. rewrite (map_lookup_some _ _ _ _ H), rate_of_text, R.
    reflexivity. }
  split.
  { intros i s H R. rewrite (map_lookup_some _ _ _ _ H), rate_of_text, R.
    reflexivity. }
  split; [intros s; apply remove_char_gone|].
  split.
  - intros i x H R. rewrite (map_lookup_some _ _ _ _ H), rate_of_text.
    change (remove_char "%"%char "12.5%") with "12.5". rewrite R. reflexivity.
  - intros i H R. rewrite (map_lookup_some _ _ _ _ H), rate_of_text.
    change (remove_char "%"%char "12,5%") with "12,5". rewrite R. reflexivity.
Qed.

Lemma rate_conversion_witness :
  exists out,
    transform_data pandas2 rates_sample = Ok out /\
    column out "tasa_interes_ea"
    = Some [CNum (Finite (Dec 125 (-1))); CNull; CNull].
Proof.
  destruct (rate_conversion pandas2 rates_sample
              [CStr "12.5%"; CStr "19,21%"; CStr "n.d."])
    as [out [outcol [T [C [L [_ [R1 [R2 _]]]]]]]].
  - reflexivity.
  - vm_compute. reflexivity.
  - exists out. split; [exact T|]. rewrite C. f_equal.
    destruct outcol as [|a [|b [|c [|? ?]]]]; try discriminate L.
    pose proof (R1 0%nat "12.5%" (Finite (Dec 125 (-1))) eq_refl) as H0.
    pose proof (R2 1%nat "19,21%" eq_refl) as H1.
    pose proof (R2 2%nat "n.d." eq_refl) as H2.
    specialize (H0 ltac:(vm_compute; reflexivity)).
    specialize (H1 ltac:(vm_compute; reflexivity)).
    specialize (H2 ltac:(vm_compute; reflexivity)).
    simpl in H0, H1, H2. congruence.
Defined.

(** C1, as stated, fails: "12,5%" does not give 12.5 but an absent value,
    and a '%' that is not at the end is removed as well, so that "1%2%"
    gives 12 where a rest "1%2" would be no number. *)
Lemma rate_comma_counterexample :
  exists out,
    transform_data pandas2
      (Frame 2 [("INTERES_BANCARIO_CORRIENTE", [CStr "12,5%"; CStr "1%2%"])])
    = Ok out /\
    column out "tasa_interes_ea" = Some [CNull; CNum (Finite (Dec 12 0))] /\
    column out "tasa_interes_ea" <> Some [CNum (Finite (Dec 125 (-1))); CNull].
Proof.
  eexists. split; [vm_compute; reflexivity|].
  split; [vm_compute; reflexivity|]. vm_compute. discriminate.
Qed.

(** C3 (amended).  For a non-empty table with one fecha_resolucion column,
    the strict conversion is all or nothing over the rows that hold a
    value: when every row holds a text that pandas converts under the
    format DD/MM/YYYY, the column becomes those dates with no absent value;
    a row whose value is missing does not abort the conversion and comes
    out absent, the other rows converted; and when some row holds a value
    that pandas does not convert under the format, the column is left
    exactly as it was. *)
Theorem fecha_resolucion_batch (lib : pandas) (df : DataFrame)
    (col : list cell) :
  is_empty df = false ->
  column (rename column_mapping df) "fecha_resolucion" = Some col ->
  exists out outcol,
    transform_data lib df = Ok out /\
    column out "fecha_resolucion" = Some outcol /\
    (forallb (date_matches lib) col = true ->
       outcol = map (coerce_date lib) col /\
       forallb (fun c => negb (isnull c)) outcol = true) /\
    (forallb (date_acceptable lib) col = true ->
       outcol = map (coerce_date lib) col /\
       (forall i s d, col !! i = Some (CStr s) -> is_nat_string s = false ->
                      strptime lib s = Some d -> outcol !! i = Some (CDate d)) /\
       (forall i, col !! i = Some CNull -> outcol !! i = Some CNull)) /\
    (forallb (date_acceptable lib) col = false -> outcol = col) /\
    date_acceptable lib CNull = true /\
    (forall s d, is_nat_string s = false -> strptime lib s = Some d ->
                 date_matches lib (CStr s) = true) /\
    (forall s, is_nat_string s = false -> strptime lib s = None ->
               date_acceptable lib (CStr s) = false).
Proof.
  intros E C.
  exists (transformed lib df),
         (if forallb (date_acceptable lib) col
          then map (coerce_date lib) col else col).
  split; [apply transform_data_nonempty; exact E|].
  split; [apply transformed_fecha; exact C|].
  split.
  { intros Hm. rewrite (matches_acceptable _ _ Hm). split; [reflexivity|].
    clear C. induction col as [|c cs IH]; simpl; [reflexivity|].
    simpl in Hm. apply andb_true_iff in Hm. destruct Hm as [Hc Hcs].
    rewrite (matches_not_null _ _ Hc). simpl. apply IH. exact Hcs. }
  split.
  { intros ->. split; [reflexivity|]. split.
    - intros i s d H N P. rewrite (map_lookup_some _ _ _ _ H). simpl.
      rewrite N, P. reflexivity.
    - intros i H. rewrite (map_lookup_some _ _ _ _ H). reflexivity. }
  split; [intros ->; reflexivity|].
  split; [reflexivity|].
  split.
  - intros s d N P. simpl. rewrite N, P. reflexivity.
  - intros s N P. unfold date_acceptable. simpl. rewrite N, P. reflexivity.
Qed.

Lemma fecha_resolucion_batch_witness :
  exists out,
    transform_data pandas2 fechas_sample = Ok out /\
    column out "fecha_resolucion"
    = Some [CDate (Date 2014 12 22); CDate (Date 2015 1 5)].
Proof.
  destruct (fecha_resolucion_batch pandas2 fechas_sample
              [CStr "22/12/2014"; CStr "5/1/2015"])
    as [out [outcol [T [C [M _]]]]].
  - reflexivity.
  - vm_compute. reflexivity.
  - exists out. split; [exact T|]. rewrite C.
    destruct M as [-> _]; [vm_compute; reflexivity|].
    vm_compute. reflexivity.
Defined.

(** C3, as stated, fails: a row whose date is missing does not match
    DD/MM/YYYY, yet the conversion is not abandoned; the other row is
    converted and the column is not left in its original form. *)
Lemma missing_date_counterexample :
  exists out,
    transform_data pandas2
      (Frame 2 [("FECHA_RESOLUCION", [CStr "22/12/2014"; CNull])])
    = Ok out /\
    forallb (date_matches pandas2) [CStr "22/12/2014"; CNull] = false /\
    column out "fecha_resolucion" = Some [CDate (Date 2014 12 22); CNull] /\
    column out "fecha_resolucion" <> Some [CStr "22/12/2014"; CNull].
Proof.
  eexists. split; [vm_compute; reflexivity|].
  split; [vm_compute; reflexivity|].
  split; [vm_compute; reflexivity|]. vm_compute. discriminate.
Qed.

(** C4 (amended).  For a non-empty table, take vigencia_desde or
    vigencia_hasta.  When the renamed table has exactly one column under
    that label, the conversion is row by row: a row whose text pandas
    converts under the format DD/MM/YYYY gets that date, every other text,
    the empty one included, gives an absent value, a missing value stays
    missing, and the value a row gets depends on that row alone.  When the
    label is not borne by exactly one column, the conversion is given up
    and what stands under the label stays as it was. *)
Theorem vigencia_per_row (lib : pandas) (df : DataFrame) (label : string) :
  label = "vigencia_desde" \/ label = "vigencia_hasta" ->
  is_empty df = false ->
  exists out,
    transform_data lib df = Ok out /\
    nrows out = nrows df /\
    (forall col, column (rename column_mapping df) label = Some col ->
       exists outcol,
         column out label = Some outcol /\
         length outcol = length col /\
         (forall i c, col !! i = Some c -> outcol !! i = Some (coerce_date lib c)) /\
         (forall i s d, col !! i = Some (CStr s) -> is_nat_string s = false ->
                        strptime lib s = Some d -> outcol !! i = Some (CDate d)) /\
         (forall i s, col !! i = Some (CStr s) -> strptime lib s = None ->
                      outcol !! i = Some CNull) /\
         (forall i, col !! i = Some (CStr "") -> outcol !! i = Some CNull) /\
         (forall i, col !! i = Some CNull -> outcol !! i = Some CNull)) /\
    (column (rename column_mapping df) label = None ->
       getitem out label = getitem (rename column_mapping df) label).
Proof.
  intros L E.
  exists (transformed lib df).
  split; [apply transform_data_nonempty; exact E|].
  split; [apply nrows_transformed|].
  split.
  - intros col C. exists (map (coerce_date lib) col).
    split.
    { destruct L as [-> | ->];
        [apply transformed_vigencia_desde | apply transformed_vigencia_hasta];
        exact C. }
    split; [apply length_map|].
    split; [intros i c H; apply map_lookup_some; exact H|].
    split.
    { intros i s d H N P. rewrite (map_lookup_some _ _ _ _ H). simpl.
      rewrite N, P. reflexivity. }
    split.
    { intros i s H P. rewrite (map_lookup_some _ _ _ _ H). simpl.
      rewrite P. destruct (is_nat_string s); reflexivity. }
    split; intros i H; rewrite (map_lookup_some _ _ _ _ H); reflexivity.
  - intros N. apply getitem_transformed_keep. right. exact N.
Qed.

Lemma vigencia_per_row_witness :
  exists out,
    transform_data pandas2 vigencia_sample = Ok out /\
    nrows out = 3%nat /\
    column out "vigencia_hasta"
    = Some [CDate (Date 2015 3 31); CNull; CDate (Date 2015 9 30)].
Proof.
  destruct (vigencia_per_row pandas2 vigencia_sample "vigencia_hasta")
    as [out [T [N [P _]]]].
  - right. reflexivity.
  - reflexivity.
  - exists out. split; [exact T|]. split; [exact N|].
    destruct (P [CStr "31/03/2015"; CStr ""; CStr "30/09/2015"])
      as [outcol [C [L [_ [R1 [_ [R2 _]]]]]]].
    + vm_compute. reflexivity.
    + rewrite C. f_equal.
      destruct outcol as [|a [|b [|c [|? ?]]]]; try discriminate L.
      pose proof (R1 0%nat "31/03/2015" (Date 2015 3 31) eq_refl eq_refl) as H0.
      pose proof (R2 1%nat eq_refl) as H1.
      pose proof (R1 2%nat "30/09/2015" (Date 2015 9 30) eq_refl eq_refl) as H2.
      specialize (H0 ltac:(vm_compute; reflexivity)).
      specialize (H2 ltac:(vm_compute; reflexivity)).
      simpl in H0, H1, H2. congruence.
Defined.

(** C4, as stated, fails: when VIGENCIA_DESDE and vigencia_desde are both
    columns of the input, the renamed table has two columns under
    vigencia_desde, the conversion is given up, and texts that are dates
    in the format DD/MM/YYYY stay texts. *)
Lemma repeated_label_counterexample :
  exists out,
    transform_data pandas2 repeated_label_sample = Ok out /\
    strptime pandas2 "01/01/2015" = Some (Date 2015 1 1) /\
    strptime pandas2 "01/04/2015" = Some (Date 2015 4 1) /\
    getitem out "vigencia_desde"
    = Ok (SubFrame [("vigencia_desde", [CStr "01/01/2015"]);
                    ("vigencia_desde", [CStr "01/04/2015"])]) /\
    column out "vigencia_desde" = None.
Proof.
  eexists. split; [vm_compute; reflexivity|].
  split; [vm_compute; reflexivity|].
  split; [vm_compute; reflexivity|].
  split; vm_compute; reflexivity.
Qed.

(** C10.  A table with no rows, whatever columns it has, comes out of the
    transformer as the fresh empty table: no rows and no columns. *)
Theorem zero_rows_lose_schema (lib : pandas) (df : DataFrame) :
  nrows df = 0%nat ->
  transform_data lib df = Ok empty_frame /\
  columns empty_frame = [] /\ nrows empty_frame = 0%nat.
Proof.
  intros H. unfold transform_data, is_empty. rewrite H. simpl.
  repeat split.
Qed.

Lemma zero_rows_lose_schema_witness :
  columns headers_only <> [] /\
  transform_data pandas2 headers_only = Ok empty_frame /\
  columns empty_frame = [] /\ nrows empty_frame = 0%nat.
Proof.
  split; [discriminate|].
  apply (zero_rows_lose_schema pandas2 headers_only). reflexivity.
Defined.

Lemma forallb_lookup_false {A} (p : A -> bool) (l : list A) i x :
  l !! i = Some x -> p x = false -> forallb p l = false.
Proof.
  revert i. induction l as [|y ys IH]; intros [|i] H Hp; simpl in *;
    try discriminate.
  - injection H as ->. rewrite Hp. reflexivity.
  - rewrite (IH i H Hp). apply andb_false_r.
Qed.

(** C2 (amended).  For a well-formed non-empty table the transformer
    returns a table with the same number of rows, every column as long as
    before and the renamed labels in the same order: no row is dropped.  In
    a table that has the column under exactly one label after renaming, a
    row whose vigencia_desde or vigencia_hasta pandas does not convert
    under the format, or whose tasa_interes_ea without '%' pandas does not
    read as a number, keeps its place with that field absent; a row whose
    fecha_resolucion holds a text that pandas does not convert keeps its
    place too, and that column is left as it was, the text included.
    Under a label that no column or more than one column bears after
    renaming, nothing is set to absent: what stands there stays. *)
Theorem transform_keeps_rows (lib : pandas) (df : DataFrame) :
  well_formed df ->
  is_empty df = false ->
  exists out,
    transform_data lib df = Ok out /\
    nrows out = nrows df /\
    well_formed out /\
    map fst (columns out) = map fst (columns (rename column_mapping df)) /\
    (forall label col,
       label = "vigencia_desde" \/ label = "vigencia_hasta" ->
       column (rename column_mapping df) label = Some col ->
       exists outcol,
         column out label = Some outcol /\
         forall i s, col !! i = Some (CStr s) -> strptime lib s = None ->
                     outcol !! i = Some CNull) /\
    (forall col,
       column (rename column_mapping df) "tasa_interes_ea" = Some col ->
       exists outcol,
         column out "tasa_interes_ea" = Some outcol /\
         forall i s, col !! i = Some (CStr s) ->
                     read_number lib (remove_char "%"%char s) = None ->
                     outcol !! i = Some CNull) /\
    (forall col i s,
       column (rename column_mapping df) "fecha_resolucion" = Some col ->
       col !! i = Some (CStr s) ->
       is_nat_string s = false -> strptime lib s = None ->
       column out "fecha_resolucion" = Some col) /\
    (forall label,
       column (rename column_mapping df) label = None ->
       getitem out label = getitem (rename column_mapping df) label).
Proof.
  intros W E. exists (transformed lib df).
  split; [apply transform_data_nonempty; exact E|].
  split; [apply nrows_transformed|].
  split; [apply well_formed_transformed; exact W|].
  split; [apply labels_transformed|].
  split.
  { intros label col L C. exists (map (coerce_date lib) col). split.
    - destruct L as [-> | ->];
        [apply transformed_vigencia_desde | apply transformed_vigencia_hasta];
        exact C.
    - intros i s H P. rewrite (map_lookup_some _ _ _ _ H). simpl.
      rewrite P. destruct (is_nat_string s); reflexivity. }
  split.
  { intros col C. exists (map (rate_of_cell lib) col). split.
    - apply transformed_rate. exact C.
    - intros i s H P. rewrite (map_lookup_some _ _ _ _ H).
      unfold rate_of_cell. simpl. rewrite P. reflexivity. }
  split.
  { intros col i s C H N P.
    rewrite (transformed_fecha lib df col C).
    rewrite (forallb_lookup_false (date_acceptable lib) col i (CStr s) H);
      [reflexivity|].
    unfold date_acceptable. simpl. rewrite N, P. reflexivity. }
  intros label N. apply getitem_transformed_keep. right. exact N.
Qed.

Lemma transform_keeps_rows_witness :
  exists out,
    transform_data pandas2 vigencia_sample = Ok out /\
    nrows out = 3%nat /\
    well_formed out /\
    map fst (columns out) = ["resolucion_id"; "vigencia_desde"; "vigencia_hasta"].
Proof.
  destruct (transform_keeps_rows pandas2 vigencia_sample)
    as [out [T [N [W [L _]]]]].
  - repeat constructor.
  - reflexivity.
  - exists out. repeat split; assumption.
Defined.

(** C2, as stated, fails in two ways.  For fecha_resolucion, the row whose
    date does not parse is retained, but its field is not set to absent:
    the text stays, and with it the text of the row that would have
    parsed.  And when VIGENCIA_HASTA and vigencia_hasta are both columns of
    the input, the conversion of vigencia_hasta is given up, and a text
    that is no date stays a text. *)
Lemma unparsed_fecha_counterexample :
  (exists out,
     transform_data pandas2
       (Frame 2 [("FECHA_RESOLUCION", [CStr "22/12/2014"; CStr "sin fecha"])])
     = Ok out /\
     strptime pandas2 "sin fecha" = None /\
     column out "fecha_resolucion" = Some [CStr "22/12/2014"; CStr "sin fecha"] /\
     (forall c, column out "fecha_resolucion" <> Some [c; CNull])) /\
  (exists out,
     transform_data pandas2 repeated_unparsed_sample = Ok out /\
     strptime pandas2 "sin fecha" = None /\
     getitem out "vigencia_hasta"
     = Ok (SubFrame [("vigencia_hasta", [CStr "sin fecha"]);
                     ("vigencia_hasta", [CStr "31/03/2015"])])).
Proof.
  split.
  - eexists. split; [vm_compute; reflexivity|].
    split; [vm_compute; reflexivity|].
    split; [vm_compute; reflexivity|].
    intros c. vm_compute. discriminate.
  - eexists. split; [vm_compute; reflexivity|].
    split; vm_compute; reflexivity.
Qed.

(** * The extractor *)

Lemma extract_data_run env url w :
  extract_data env url w
  = (World (disk w)
           (trace w ++ [Print ("Iniciando la extracción de datos desde: " ++ url);
                        HttpGet url;
                        Print (snd (extraction env url))]),
     Ok (fst (extraction env url))).
Proof.
  unfold extract_data, extraction, requests_get, raise_for_status.
  unfold bind, try_except, print, emit, modify, call, ret, raise. simpl.
  destruct (http_get env url) as [r|e]; simpl.
  - destruct ((400 <=? status_code r) && (status_code r <? 500)); simpl;
      [rewrite <- !app_assoc; reflexivity|].
    destruct ((500 <=? status_code r) && (status_code r <? 600)); simpl;
      [rewrite <- !app_assoc; reflexivity|].
    destruct (read_csv env (text r)) as [d|e]; simpl.
    + rewrite <- !app_assoc. reflexivity.
    + destruct e; simpl; rewrite <- !app_assoc; reflexivity.
  - destruct e; simpl; rewrite <- !app_assoc; reflexivity.
Qed.

Example not_found_line :
  extract_data not_found_env csv_url empty_world
  = (World ∅
       [Print "Iniciando la extracción de datos desde: https://www.datos.gov.co/api/views/pare-7x5i/rows.csv?accessType=DOWNLOAD";
        HttpGet csv_url;
        Print "Error al extraer los datos desde la URL: 404 Client Error: Not Found for url: https://www.datos.gov.co/api/views/pare-7x5i/rows.csv?accessType=DOWNLOAD"],
     Ok empty_frame).
Proof. vm_compute. reflexivity. Qed.

(** C5 (amended).  extract_data never raises: whatever the network and
    read_csv answer, it returns a table, leaves the storage alone and
    prints one line about the outcome.  The table is empty and the line
    reports the cause on a transport failure, on a status from 400 to 599
    (with the message of requests: the status, Client or Server Error, the
    reason and the url), and when read_csv rejects the body; otherwise,
    other statuses outside 2xx included, it is the table read_csv makes of
    the body. *)
Theorem extract_data_never_raises (env : environment) (u : string) (w : world) :
  exists (df : DataFrame) (line : string),
    snd (extract_data env u w) = Ok df /\
    disk (fst (extract_data env u w)) = disk w /\
    trace (fst (extract_data env u w))
    = (trace w ++ [Print ("Iniciando la extracción de datos desde: " ++ u);
                   HttpGet u; Print line])%list /\
    match http_get env u with
    | Fails e =>
        df = empty_frame /\ line = extraction_failure_line e
    | Reply r =>
        if (400 <=? status_code r) && (status_code r <? 500)
        then df = empty_frame /\
             line = "Error al extraer los datos desde la URL: "
                    ++ pretty (status_code r) ++ " Client Error: " ++ reason r
                    ++ " for url: " ++ url r
        else if (500 <=? status_code r) && (status_code r <? 600)
        then df = empty_frame /\
             line = "Error al extraer los datos desde la URL: "
                    ++ pretty (status_code r) ++ " Server Error: " ++ reason r
                    ++ " for url: " ++ url r
        else match read_csv env (text r) with
             | Reply d => df = d /\ line = "Datos extraídos exitosamente."
             | Fails e => df = empty_frame /\ line = extraction_failure_line e
             end
    end.
Proof.
  exists (fst (extraction env u)), (snd (extraction env u)).
  rewrite extract_data_run. simpl.
  split; [reflexivity|]. split; [reflexivity|]. split; [reflexivity|].
  unfold extraction.
  destruct (http_get env u) as [r|e]; simpl; [|split; reflexivity].
  destruct ((400 <=? status_code r) && (status_code r <? 500)); simpl;
    [split; reflexivity|].
  destruct ((500 <=? status_code r) && (status_code r <? 600)); simpl;
    [split; reflexivity|].
  destruct (read_csv env (text r)); simpl; split; reflexivity.
Qed.

(** C5, as stated, fails for a status outside 2xx that is neither 4xx nor
    5xx: raise_for_status lets it pass and the body is parsed. *)
Lemma status_300_counterexample :
  exists df,
    snd (extract_data redirect_env csv_url empty_world) = Ok df /\
    http_get redirect_env csv_url
    = Reply (Response 300 "Multiple Choices" csv_url redirect_body) /\
    df = redirect_table /\
    is_empty df = false.
Proof.
  eexists. split; [vm_compute; reflexivity|].
  split; [reflexivity|]. split; reflexivity.
Qed.

(** * The loader *)

Lemma world_eta w : World (disk w) (trace w) = w.
Proof. destruct w. reflexivity. Qed.

Lemma to_sql_run env df table_name conn w :
  to_sql env df table_name conn w
  = (World (alter (store_effect env df table_name) conn (disk w)) (trace w),
     match store_error env df table_name with
     | Some e => Raise (Exc e)
     | None => Ok tt
     end).
Proof.
  unfold to_sql, store_effect, store_error, names_valid.
  destruct (negb _) eqn:V; simpl.
  - unfold raise. rewrite alter_id by reflexivity. rewrite world_eta. reflexivity.
  - destruct (write_fault env df table_name) as [[e after]|]; simpl.
    + reflexivity.
    + unfold bind, update_db, modify, raise. simpl.
      destruct (duplicate_columns df); simpl; [reflexivity|].
      rewrite alter_alter_eq. reflexivity.
Qed.

Lemma load_data_empty env df db_name table_name w :
  is_empty df = true ->
  load_data env df db_name table_name w
  = (World (disk w)
           (trace w ++
            [Print (load_start_line db_name table_name);
             Print "El DataFrame de entrada para la carga está vacío. No se cargará nada."]),
     Ok tt).
Proof.
  intros E. unfold load_data, bind, print, emit, modify. simpl. rewrite E. simpl.
  rewrite <- !app_assoc. reflexivity.
Qed.

Lemma load_data_run env df db_name table_name w :
  is_empty df = false ->
  load_data env df db_name table_name w
  = (World (load_disk env df db_name table_name (disk w))
           (trace w ++ load_events env df db_name table_name),
     Ok tt).
Proof.
  intros E. unfold load_data, load_disk, load_events.
  unfold bind at 1. unfold print at 1, emit, modify at 1. simpl. rewrite E.
  unfold with_local, try_finally, try_except, bind, in_world, set_local, get_local.
  unfold sqlite3_connect. simpl.
  destruct (connect_fault env db_name) as [e|]; simpl.
  - unfold raise, load_failure_line, print, emit, modify, ret.
    destruct e; simpl; rewrite <- !app_assoc; reflexivity.
  - unfold bind, modify, emit, ret, print, conn_close. simpl.
    rewrite to_sql_run. simpl. unfold created.
    destruct (store_error env df table_name) as [e|] eqn:SE; simpl.
    + unfold load_failure_line, emit, modify.
      destruct e; simpl; rewrite <- !app_assoc; reflexivity.
    + unfold emit, modify. simpl. rewrite <- !app_assoc. reflexivity.
Qed.

Lemma created_is_Some path d : is_Some (created path d !! path).
Proof.
  unfold created. destruct (d !! path) as [db|] eqn:L.
  - rewrite L. eauto.
  - rewrite lookup_insert_eq. eauto.
Qed.

Lemma created_present path d : is_Some (d !! path) -> created path d = d.
Proof. intros [db L]. unfold created. rewrite L. reflexivity. Qed.

Lemma store_effect_idempotent env df table_name db :
  write_fault env df table_name = None ->
  store_effect env df table_name (store_effect env df table_name db)
  = store_effect env df table_name db.
Proof.
  intros F. unfold store_effect. rewrite F.
  destruct (negb (names_valid df table_name)); [reflexivity|].
  destruct (duplicate_columns df).
  - apply delete_delete_eq.
  - rewrite delete_insert_eq, delete_delete_eq. reflexivity.
Qed.

Lemma load_disk_idempotent env df db_name table_name d :
  connect_fault env db_name = None ->
  write_fault env df table_name = None ->
  load_disk env df db_name table_name (load_disk env df db_name table_name d)
  = load_disk env df db_name table_name d.
Proof.
  intros C F. unfold load_disk. rewrite C.
  rewrite (created_present db_name (alter _ _ _)).
  - rewrite alter_alter_eq. apply alter_ext. intros x _. simpl.
    apply store_effect_idempotent. exact F.
  - rewrite lookup_alter_eq. destruct (created_is_Some db_name d) as [x ->].
    simpl. eauto.
Qed.

Lemma load_disk_table env df db_name table_name d :
  connect_fault env db_name = None ->
  write_fault env df table_name = None ->
  names_valid df table_name = true ->
  duplicate_columns df = false ->
  load_disk env df db_name table_name d !! db_name ≫= (fun db => db !! table_name)
  = Some (sql_of_frame env df).
Proof.
  intros C F V D. unfold load_disk. rewrite C, lookup_alter_eq.
  destruct (created_is_Some db_name d) as [x ->]. simpl.
  unfold store_effect. rewrite V, F, D. simpl. apply lookup_insert_eq.
Qed.

Lemma filter_connect_app (t evs : list event) :
  List.filter is_Connect evs = [] ->
  List.filter is_Connect (t ++ evs) = List.filter is_Connect t.
Proof. intros H. rewrite List.filter_app, H. apply app_nil_r. Qed.

Lemma main_run_empty env w :
  is_empty (fst (extraction env csv_url)) = true ->
  main env w
  = (World (disk w)
           (trace w ++
            [Print ("Iniciando la extracción de datos desde: " ++ csv_url);
             HttpGet csv_url;
             Print (snd (extraction env csv_url));
             Print "No se pudieron extraer los datos o el DataFrame está vacío. No se puede continuar con la transformación."]),
     Ok tt).
Proof.
  intros E. unfold main, bind. rewrite extract_data_run, E. simpl.
  unfold print, emit, modify. simpl. rewrite <- !app_assoc. reflexivity.
Qed.

(** C6.  For an empty table load_data returns normally without touching
    the storage: the files are as before and no connection is opened.
    The transformer turns an empty table into an empty table, and when
    the extractor returns an empty table the whole script ends normally
    with the files as before and no connection opened. *)
Theorem empty_table_opens_no_connection (env : environment) (df : DataFrame)
    (db_name table_name : string) (w : world) :
  is_empty df = true ->
  (snd (load_data env df db_name table_name w) = Ok tt /\
   disk (fst (load_data env df db_name table_name w)) = disk w /\
   List.filter is_Connect (trace (fst (load_data env df db_name table_name w)))
   = List.filter is_Connect (trace w)) /\
  (exists out, transform_data (env_pandas env) df = Ok out /\
               is_empty out = true) /\
  (snd (extract_data env csv_url w) = Ok df ->
   snd (main env w) = Ok tt /\
   disk (fst (main env w)) = disk w /\
   List.filter is_Connect (trace (fst (main env w)))
   = List.filter is_Connect (trace w)).
Proof.
  intros E. split; [|split].
  - rewrite (load_data_empty _ _ _ _ _ E). simpl.
    split; [reflexivity|]. split; [reflexivity|].
    apply filter_connect_app. reflexivity.
  - exists empty_frame. unfold transform_data. rewrite E. split; reflexivity.
  - rewrite extract_data_run. simpl. intros [= <-].
    rewrite (main_run_empty _ _ E). simpl.
    split; [reflexivity|]. split; [reflexivity|].
    apply filter_connect_app. reflexivity.
Qed.

Lemma empty_table_opens_no_connection_witness :
  snd (main quiet_env empty_world) = Ok tt /\
  disk (fst (main quiet_env empty_world)) = ∅ /\
  List.filter is_Connect (trace (fst (main quiet_env empty_world))) = [].
Proof.
  destruct (empty_table_opens_no_connection quiet_env empty_frame
              "tibc_data.db" "tasas_interes_bancario" empty_world)
    as [_ [_ H]].
  - reflexivity.
  - apply H. vm_compute. reflexivity.
Defined.

(** C7.  When the storage works, loading a non-empty table twice under the
    same file and table name leaves the files exactly as loading it once.
    With identifiers the engine accepts, the stored table is, after one
    load and after two, the image of the table loaded, whatever the table
    of that name held before: the same rows, and the frame's columns and
    no other. *)
Theorem load_data_idempotent (env : environment) (df : DataFrame)
    (db_name table_name : string) (w : world) :
  is_empty df = false ->
  connect_fault env db_name = None ->
  write_fault env df table_name = None ->
  let once := fst (load_data env df db_name table_name w) in
  let twice := fst (load_data env df db_name table_name once) in
  disk twice = disk once /\
  (names_valid df table_name = true ->
   duplicate_columns df = false ->
   disk once !! db_name ≫= (fun db => db !! table_name) = Some (sql_of_frame env df) /\
   disk twice !! db_name ≫= (fun db => db !! table_name) = Some (sql_of_frame env df) /\
   t_nrows (sql_of_frame env df) = nrows df /\
   map fst (t_columns (sql_of_frame env df)) = map fst (columns df)).
Proof.
  intros E C F once twice. subst once twice.
  rewrite !(load_data_run _ _ _ _ _ E). simpl.
  split; [apply load_disk_idempotent; assumption|].
  intros V D. rewrite (load_disk_idempotent _ _ _ _ _ C F).
  rewrite (load_disk_table _ _ _ _ _ C F V D).
  repeat split. unfold sql_of_frame. simpl. rewrite map_map. reflexivity.
Qed.

(** C8.  On a non-empty table load_data returns normally whatever the
    storage does.  Its events leave no connection open: when connecting
    fails there is none to close, and when it succeeds the connection is
    closed as the last thing but one, after a successful write and after
    a failed one alike. *)
Theorem connection_closed_on_every_path (env : environment) (df : DataFrame)
    (db_name table_name : string) (w : world) :
  is_empty df = false ->
  exists events,
    snd (load_data env df db_name table_name w) = Ok tt /\
    trace (fst (load_data env df db_name table_name w)) = (trace w ++ events)%list /\
    open_after events [] = [] /\
    (connect_fault env db_name = None ->
     exists line,
       events = [Print (load_start_line db_name table_name);
                 Connect db_name;
                 Print ("Conexión a la base de datos '" ++ db_name ++ "' establecida.");
                 Print line;
                 Close db_name;
                 Print "Conexión a la base de datos cerrada."] /\
       (forall e, store_error env df table_name = Some e ->
                  line = load_failure_line e)) /\
    (forall e, connect_fault env db_name = Some e ->
               List.filter is_Connect events = []).
Proof.
  intros E. exists (load_events env df db_name table_name).
  rewrite (load_data_run _ _ _ _ _ E). simpl.
  split; [reflexivity|]. split; [reflexivity|].
  unfold load_events.
  destruct (connect_fault env db_name) as [e|]; simpl.
  - split; [reflexivity|]. split; [discriminate|]. intros; reflexivity.
  - rewrite bool_decide_eq_true_2 by reflexivity.
    split; [reflexivity|]. split; [|discriminate].
    intros _. eexists. split; [reflexivity|].
    intros e ->. reflexivity.
Qed.

Lemma load_data_idempotent_witness :
  let once := fst (load_data quiet_env loaded_sample "tibc_data.db"
                     "tasas_interes_bancario" stale_world) in
  let twice := fst (load_data quiet_env loaded_sample "tibc_data.db"
                      "tasas_interes_bancario" once) in
  disk twice = disk once /\
  disk twice !! "tibc_data.db" ≫= (fun db => db !! "tasas_interes_bancario")
  = Some (sql_of_frame quiet_env loaded_sample) /\
  t_nrows (sql_of_frame quiet_env loaded_sample) = 2%nat.
Proof.
  destruct (load_data_idempotent quiet_env loaded_sample "tibc_data.db"
              "tasas_interes_bancario" stale_world) as [I T];
    [reflexivity | reflexivity | reflexivity |].
  destruct T as [_ [T2 [N _]]]; [vm_compute; reflexivity | vm_compute; reflexivity |].
  split; [exact I|]. split; [exact T2 | exact N].
Defined.

Lemma connection_closed_on_every_path_witness :
  exists events,
    snd (load_data failing_env loaded_sample "tibc_data.db"
           "tasas_interes_bancario" empty_world) = Ok tt /\
    trace (fst (load_data failing_env loaded_sample "tibc_data.db"
                  "tasas_interes_bancario" empty_world)) = events /\
    open_after events [] = [] /\
    In (Connect "tibc_data.db") events /\
    In (Print "Error de SQLite al cargar los datos: disk I/O error") events.
Proof.
  destruct (connection_closed_on_every_path failing_env loaded_sample
              "tibc_data.db" "tasas_interes_bancario" empty_world)
    as [events [R [T [O [C _]]]]]; [reflexivity|].
  exists events. split; [exact R|]. split; [exact T|]. split; [exact O|].
  destruct C as [line [-> L]]; [reflexivity|].
  rewrite (L (SqliteError "disk I/O error")) by reflexivity.
  split; [right; left; reflexivity|].
  right; right; right; left. reflexivity.
Defined.

(** * The visualization script *)

Lemma getitem_raises_exception df l e :
  getitem df l = Raise e -> exists x : exception, e = Exc x.
Proof.
  unfold getitem.
  destruct (List.filter (has_label l) (columns df)) as [|c [|c' cs]];
    intros H; try discriminate.
  injection H as <-. eauto.
Qed.

Lemma reassign_raises_exception l f df e :
  (forall it e', f it = Raise e' -> exists x : exception, e' = Exc x) ->
  reassign l f df = Raise e -> exists x : exception, e = Exc x.
Proof.
  intros Hf. unfold reassign.
  destruct (getitem df l) as [it|e0] eqn:G; simpl.
  - destruct (f it) as [data|e1] eqn:F; simpl; [discriminate|].
    intros [= <-]. eapply Hf. eassumption.
  - intros [= <-]. eapply getitem_raises_exception. eassumption.
Qed.

Lemma to_datetime_infer_raises env it e :
  to_datetime_infer env it = Raise e -> exists x : exception, e = Exc x.
Proof. destruct it; simpl; [discriminate|]. intros [= <-]. eauto. Qed.

Lemma to_numeric_raises lib it e :
  to_numeric lib it = Raise e -> exists x : exception, e = Exc x.
Proof. destruct it; simpl; [discriminate|]. intros [= <-]. eauto. Qed.

Lemma dropna_raises subset df e :
  dropna subset df = Raise e -> exists x : exception, e = Exc x.
Proof.
  unfold dropna. destruct (List.filter _ subset); [discriminate|].
  intros [= <-]. eauto.
Qed.

Lemma cleaned_raises_exception env df e :
  cleaned env df = Raise e -> exists x : exception, e = Exc x.
Proof.
  unfold cleaned.
  destruct (reassign "fecha_resolucion" _ df) as [d1|e1] eqn:R1; simpl;
    [|intros [= <-]; eapply reassign_raises_exception;
      [apply to_datetime_infer_raises | eassumption]].
  destruct (reassign "vigencia_desde" _ d1) as [d2|e2] eqn:R2; simpl;
    [|intros [= <-]; eapply reassign_raises_exception;
      [apply to_datetime_infer_raises | eassumption]].
  destruct (reassign "vigencia_hasta" _ d2) as [d3|e3] eqn:R3; simpl;
    [|intros [= <-]; eapply reassign_raises_exception;
      [apply to_datetime_infer_raises | eassumption]].
  destruct (reassign "tasa_interes_ea" _ d3) as [d4|e4] eqn:R4; simpl;
    [|intros [= <-]; eapply reassign_raises_exception;
      [apply to_numeric_raises | eassumption]].
  apply dropna_raises.
Qed.

Lemma nlargest_raises n l df e :
  nlargest n l df = Raise e -> exists x : exception, e = Exc x.
Proof.
  unfold nlargest. destruct (getitem df l) as [[col|cs]|e0] eqn:G; simpl.
  - destruct (numbers_of col); [discriminate|]. intros [= <-]. eauto.
  - intros [= <-]. eauto.
  - intros [= <-]. eapply getitem_raises_exception. eassumption.
Qed.

Lemma charts_outcome env df w :
  (exists u, snd (charts env df w) = Ok u) \/
  (exists x : exception, snd (charts env df w) = Raise (Exc x)).
Proof.
  unfold charts, chart, bind, lift, print, emit, modify, raise.
  destruct (chart_fault env (output_image_path_1 env) df); simpl; [eauto|].
  destruct (chart_fault env (output_image_path_2 env) df); simpl; [eauto|].
  destruct (nlargest 5 "tasa_interes_ea" df) as [top|e] eqn:N; simpl.
  - destruct (nrows top =? 0)%nat; simpl; [eauto|].
    destruct (chart_fault env (output_image_path_3 env) top); simpl; eauto.
  - destruct (nlargest_raises _ _ _ _ N) as [x ->]. eauto.
Qed.

Lemma charts_succeed env df w top :
  (forall path data, chart_fault env path data = None) ->
  nlargest 5 "tasa_interes_ea" df = Ok top ->
  snd (charts env df w) = Ok tt.
Proof.
  intros F N. unfold charts, chart, bind, lift, print, emit, modify.
  rewrite !F, N. simpl. destruct (nrows top =? 0)%nat; simpl; [reflexivity|].
  rewrite F. reflexivity.
Qed.

(** The try block, stage by stage. *)
Lemma visualizacion_body_run env w :
  visualizacion_body env w
  = match connect_fault env (db_path env) with
    | Some e => (w, Raise (Exc e))
    | None =>
        let d := created (db_path env) (disk w) in
        match read_fault env with
        | Some e => (World d (trace w ++ [Connect (db_path env)]), Raise (Exc e))
        | None =>
            match d !! db_path env ≫= (fun db => db !! TABLE_NAME) with
            | None => (World d (trace w ++ [Connect (db_path env)]),
                       Raise (Exc (DatabaseError "no such table")))
            | Some t =>
                let opened := (trace w ++ [Connect (db_path env); Close (db_path env)])%list in
                if is_empty (frame_of_table t)
                then (World d (opened ++ [Print warning_empty_table]),
                      Raise (SystemExit 0))
                else match cleaned env (frame_of_table t) with
                     | Raise e => (World d opened, Raise e)
                     | Ok df =>
                         if is_empty df
                         then (World d (opened ++ [Print warning_empty_after_cleaning]),
                               Raise (SystemExit 0))
                         else charts env df (World d opened)
                     end
            end
        end
    end.
Proof.
  unfold visualizacion_body, sqlite3_connect, read_sql_query, created.
  destruct (connect_fault env (db_path env)) as [e|]; [reflexivity|].
  unfold bind at 1. unfold bind at 1. unfold bind at 1.
  unfold modify at 1, emit at 1, modify at 1, ret at 1. simpl.
  destruct (read_fault env) as [e|]; [reflexivity|].
  unfold bind at 1. unfold bind at 1. unfold get. simpl disk.
  destruct (_ ≫= _) as [t|]; [|reflexivity].
  unfold ret at 1. unfold bind at 1. unfold bind at 1.
  unfold conn_close, emit at 1, modify at 1. simpl.
  rewrite <- !app_assoc. simpl.
  destruct (is_empty (frame_of_table t)).
  { unfold bind, print, emit, modify, sys_exit, raise. simpl.
    rewrite <- !app_assoc. reflexivity. }
  unfold ret at 1. unfold cleaned, lift.
  unfold bind at 1.
  destruct (reassign "fecha_resolucion" _ _) as [d1|e1]; cbn [rbind]; [|reflexivity].
  unfold bind at 1.
  destruct (reassign "vigencia_desde" _ _) as [d2|e2]; cbn [rbind]; [|reflexivity].
  unfold bind at 1.
  destruct (reassign "vigencia_hasta" _ _) as [d3|e3]; cbn [rbind]; [|reflexivity].
  unfold bind at 1.
  destruct (reassign "tasa_interes_ea" _ _) as [d4|e4]; cbn [rbind]; [|reflexivity].
  unfold bind at 1.
  destruct (dropna _ d4) as [df|e5]; [|reflexivity].
  unfold bind at 1. unfold bind at 1.
  destruct (is_empty df).
  { unfold bind, print, emit, modify, sys_exit, raise. simpl.
    rewrite <- !app_assoc. reflexivity. }
  reflexivity.
Qed.

(** What the script makes of the outcome of its try block. *)
Lemma visualizacion_run env w :
  visualizacion env w
  = match disk w !! db_path env with
    | None =>
        (World (disk w)
               (trace w ++
                [Print ("ERROR FATAL: La base de datos '" ++ DATABASE_NAME
                        ++ "' NO se encontró en la ruta esperada: " ++ db_path env)]),
         Raise (SystemExit 1))
    | Some _ =>
        match visualizacion_body env w with
        | (w1, Ok _) =>
            (World (disk w1)
                   (trace w1 ++
                    [Print "********** FIN DE GENERACIÓN DE VISUALIZACIONES (EXITOSO) **********"]),
             Ok tt)
        | (w1, Raise (Exc e)) =>
            (World (disk w1) (trace w1 ++ [Print (visualizacion_failure_line e)]),
             Raise (SystemExit 1))
        | (w1, Raise (SystemExit c)) => (w1, Raise (SystemExit c))
        end
    end.
Proof.
  unfold visualizacion, path_exists. unfold bind at 1.
  destruct (disk w !! db_path env) as [db|] eqn:L.
  - rewrite bool_decide_eq_true_2 by eauto. simpl.
    unfold bind at 1. unfold bind at 1. unfold ret at 1.
    unfold try_except.
    destruct (visualizacion_body env w) as [w1 [u|[e|c]]]; simpl.
    + unfold print, emit, modify. reflexivity.
    + unfold visualizacion_failure_line, bind, print, emit, modify, sys_exit, raise.
      destruct e; reflexivity.
    + reflexivity.
  - rewrite bool_decide_eq_false_2 by (intros [x Hx]; discriminate). simpl.
    unfold bind, print, emit, modify, sys_exit, raise. simpl. reflexivity.
Qed.

Lemma visualizacion_body_outcome env w :
  (exists u, snd (visualizacion_body env w) = Ok u) \/
  (exists x : exception, snd (visualizacion_body env w) = Raise (Exc x)) \/
  snd (visualizacion_body env w) = Raise (SystemExit 0).
Proof.
  rewrite visualizacion_body_run.
  destruct (connect_fault env (db_path env)); simpl; [eauto|].
  destruct (read_fault env); simpl; [eauto|].
  destruct (_ ≫= _) as [t|]; simpl; [|eauto].
  destruct (is_empty (frame_of_table t)); simpl; [eauto|].
  destruct (cleaned env (frame_of_table t)) as [df|e] eqn:C; simpl.
  - destruct (is_empty df); simpl; [eauto|].
    destruct (charts_outcome env df
                (World (created (db_path env) (disk w))
                       (trace w ++ [Connect (db_path env); Close (db_path env)])))
      as [H|H]; eauto.
  - destruct (cleaned_raises_exception _ _ _ C) as [x ->]. eauto.
Qed.

(** C9 (amended).  The script ends with status 0 or 1.  It ends with 1
    exactly when the database file is missing or an exception is raised
    inside its try block: a failing connection, a failing read and a
    missing table are such exceptions, and so is any other one, as a
    column the conversions look for and do not find, or a chart that
    cannot be drawn.  It ends with 0 when the table is empty as read or
    after the rows without date or rate are dropped, a warning printed in
    both cases, and when every stage succeeds. *)
Theorem visualizacion_exit_status (env : environment) (w : world) :
  let status := exit_status (snd (visualizacion env w)) in
  let printed := trace (fst (visualizacion env w)) in
  (status = 0 \/ status = 1) /\
  (status = 1 <->
     disk w !! db_path env = None \/
     exists e : exception, snd (visualizacion_body env w) = Raise (Exc e)) /\
  (forall db, disk w !! db_path env = Some db ->
     (forall e, connect_fault env (db_path env) = Some e -> status = 1) /\
     (connect_fault env (db_path env) = None ->
        (forall e, read_fault env = Some e -> status = 1) /\
        (read_fault env = None ->
           (db !! TABLE_NAME = None -> status = 1) /\
           (forall t, db !! TABLE_NAME = Some t ->
              (is_empty (frame_of_table t) = true ->
                 status = 0 /\ In (Print warning_empty_table) printed) /\
              (is_empty (frame_of_table t) = false ->
                 (forall e, cleaned env (frame_of_table t) = Raise e -> status = 1) /\
                 (forall df, cleaned env (frame_of_table t) = Ok df ->
                    (is_empty df = true ->
                       status = 0 /\
                       In (Print warning_empty_after_cleaning) printed) /\
                    (is_empty df = false ->
                       (forall e, chart_fault env (output_image_path_1 env) df = Some e ->
                                  status = 1) /\
                       (forall top,
                          (forall path data, chart_fault env path data = None) ->
                          nlargest 5 "tasa_interes_ea" df = Ok top ->
                          status = 0)))))))).
Proof.
  intros status printed. subst status printed.
  rewrite visualizacion_run.
  split; [|split].
  - destruct (disk w !! db_path env); [|right; reflexivity].
    destruct (visualizacion_body_outcome env w) as [[u H]|[[x H]|H]];
      destruct (visualizacion_body env w) as [w1 r]; simpl in H; subst r; simpl;
      auto.
  - destruct (disk w !! db_path env) as [db|] eqn:L;
      [|split; [left; reflexivity | reflexivity]].
    destruct (visualizacion_body_outcome env w) as [[u H]|[[x H]|H]];
      destruct (visualizacion_body env w) as [w1 r]; simpl in H; subst r; simpl.
    + split; [discriminate|]. intros [H|[e H]]; discriminate.
    + split; [|reflexivity]. intros _. right. eauto.
    + split; [discriminate|]. intros [H|[e H]]; discriminate.
  - intros db L. rewrite L. rewrite visualizacion_body_run. cbv zeta.
    rewrite (created_present _ _ (ex_intro _ db L)). rewrite L. simpl.
    split.
    { intros e ->. reflexivity. }
    intros ->. split.
    { intros e ->. reflexivity. }
    intros ->. split.
    { intros ->. reflexivity. }
    intros t ->. split.
    { intros ->. simpl. split; [reflexivity|].
      apply in_or_app. right. simpl. auto. }
    intros ->. split.
    { intros e C. rewrite C.
      destruct (cleaned_raises_exception _ _ _ C) as [x ->]. reflexivity. }
    intros df ->. split.
    { intros ->. simpl. split; [reflexivity|].
      apply in_or_app. right. simpl. auto. }
    intros ->. split.
    { intros e F. unfold charts, chart, bind. rewrite F. reflexivity. }
    intros top F N.
    pose proof (charts_succeed env df
                  (World (disk w)
                         (trace w ++ [Connect (db_path env); Close (db_path env)]))
                  top F N) as S.
    destruct (charts env df _) as [w1 r]. simpl in S. subst r. reflexivity.
Qed.

Lemma visualizacion_exit_status_witness :
  exit_status (snd (visualizacion quiet_env no_rows_world)) = 0 /\
  In (Print warning_empty_table) (trace (fst (visualizacion quiet_env no_rows_world))) /\
  exit_status (snd (visualizacion quiet_env loaded_world)) = 0.
Proof.
  destruct (visualizacion_exit_status quiet_env no_rows_world) as [_ [_ H]].
  destruct (H _ eq_refl) as [_ H1].
  destruct (H1 eq_refl) as [_ H2].
  destruct (H2 eq_refl) as [_ H3].
  destruct (H3 _ eq_refl) as [[S P] _]; [reflexivity|].
  split; [exact S|]. split; [exact P|].
  destruct (visualizacion_exit_status quiet_env loaded_world) as [_ [_ K]].
  destruct (K _ eq_refl) as [_ K1].
  destruct (K1 eq_refl) as [_ K2].
  destruct (K2 eq_refl) as [_ K3].
  destruct (K3 _ eq_refl) as [_ K4].
  destruct (K4 eq_refl) as [_ K5].
  destruct (K5 _ eq_refl) as [_ K6].
  destruct (K6 eq_refl) as [_ K7].
  eapply K7; [reflexivity | vm_compute; reflexivity].
Defined.

(** C9, as stated, fails: with the database file present, the table
    present and read without error, and rows in it, the script still ends
    with status 1 when a column it converts is not there. *)
Lemma missing_column_counterexample :
  is_Some (disk partial_world !! db_path quiet_env) /\
  connect_fault quiet_env (db_path quiet_env) = None /\
  read_fault quiet_env = None /\
  (exists t, disk partial_world !! db_path quiet_env
               ≫= (fun db => db !! TABLE_NAME) = Some t /\
             is_empty (frame_of_table t) = false) /\
  snd (visualizacion_body quiet_env partial_world) = Raise (Exc (KeyError "vigencia_desde")) /\
  exit_status (snd (visualizacion quiet_env partial_world)) = 1.
Proof.
  split; [vm_compute; eauto|]. split; [reflexivity|]. split; [reflexivity|].
  split; [eexists; split; vm_compute; reflexivity|].
  split; vm_compute; reflexivity.
Qed.

(** * Further properties of the transformer *)

Lemma labels_rename df :
  map fst (columns (rename column_mapping df)) = map canonical (map fst (columns df)).
Proof. unfold rename. simpl. rewrite !map_map. reflexivity. Qed.

Lemma is_empty_same_shape df df' :
  nrows df' = nrows df ->
  map fst (columns df') = map fst (columns df) ->
  is_empty df' = is_empty df.
Proof.
  intros N L. unfold is_empty. rewrite N.
  rewrite <- (length_map fst (columns df')), L, length_map. reflexivity.
Qed.

Lemma is_empty_transformed lib df :
  is_empty (transformed lib df) = is_empty df.
Proof.
  transitivity (is_empty (rename column_mapping df)).
  - apply is_empty_same_shape; [rewrite nrows_transformed; reflexivity | apply labels_transformed].
  - unfold is_empty, rename. simpl. rewrite length_map. reflexivity.
Qed.

(** X1.  transform_data never raises: on an empty table it returns the
    fresh empty table, and on any other table, whatever columns it has or
    lacks, a table that is not empty, with as many rows and as many
    columns as the input. *)
Theorem transform_data_total (lib : pandas) (df : DataFrame) :
  exists out,
    transform_data lib df = Ok out /\
    is_empty out = is_empty df /\
    (is_empty df = true -> out = empty_frame) /\
    (is_empty df = false ->
       nrows out = nrows df /\
       length (columns out) = length (columns df)).
Proof.
  destruct (is_empty df) eqn:E.
  - exists empty_frame. unfold transform_data. rewrite E.
    split; [reflexivity|]. split; [reflexivity|].
    split; [reflexivity | discriminate].
  - exists (transformed lib df).
    split; [apply transform_data_nonempty; exact E|].
    split; [rewrite is_empty_transformed; exact E|].
    split; [discriminate|]. intros _.
    split; [apply nrows_transformed|].
    rewrite <- (length_map fst (columns (transformed lib df))), labels_transformed.
    rewrite labels_rename, !length_map. reflexivity.
Qed.

Lemma transform_data_total_witness :
  exists out,
    transform_data pandas2 repeated_label_sample = Ok out /\
    nrows out = 1%nat /\ length (columns out) = 3%nat.
Proof.
  destruct (transform_data_total pandas2 repeated_label_sample)
    as [out [T [_ [_ S]]]].
  exists out. split; [exact T|]. apply S. reflexivity.
Defined.

(** X2.  On a non-empty table the transformer keeps the columns in their
    order and relabels them by the mapping, a label the mapping does not
    know staying as it is; and under every label other than the four it
    converts, and also under one of the four when that label is absent or
    occurs more than once after renaming, the data are exactly those of
    the input. *)
Theorem transform_leaves_other_columns (lib : pandas) (df : DataFrame)
    (l : string) :
  is_empty df = false ->
  ~ In l converted_labels \/ column (rename column_mapping df) l = None ->
  exists out,
    transform_data lib df = Ok out /\
    map fst (columns out) = map canonical (map fst (columns df)) /\
    (forall n, column_mapping !! n = None -> canonical n = n) /\
    getitem out l = getitem (rename column_mapping df) l.
Proof.
  intros E H. exists (transformed lib df).
  split; [apply transform_data_nonempty; exact E|].
  split; [rewrite labels_transformed; apply labels_rename|].
  split; [intros n Hn; unfold canonical; rewrite Hn; reflexivity|].
  apply getitem_transformed_keep. exact H.
Qed.

Lemma transform_leaves_other_columns_witness :
  exists out,
    transform_data pandas2 repeated_label_sample = Ok out /\
    map fst (columns out) = ["vigencia_desde"; "vigencia_desde"; "tipo_credito_nombre"] /\
    getitem out "vigencia_desde"
    = Ok (SubFrame [("vigencia_desde", [CStr "01/01/2015"]);
                    ("vigencia_desde", [CStr "01/04/2015"])]).
Proof.
  destruct (transform_leaves_other_columns pandas2 repeated_label_sample
              "vigencia_desde") as [out [T [L [_ G]]]].
  - reflexivity.
  - right. vm_compute. reflexivity.
  - exists out. split; [exact T|]. split; [exact L | exact G].
Defined.

Lemma column_transformed_source lib df l col :
  column (transformed lib df) l = Some col ->
  exists col0, column (rename column_mapping df) l = Some col0.
Proof.
  intros H. destruct (column (rename column_mapping df) l) as [c0|] eqn:C; [eauto|].
  rewrite (column_of_getitem (rename column_mapping df) (transformed lib df)) in H.
  - congruence.
  - apply getitem_transformed_keep. right. exact C.
Qed.

Lemma coerce_date_shape lib col : forallb is_date_or_null (map (coerce_date lib) col) = true.
Proof.
  induction col as [|c cs IH]; simpl; [reflexivity|]. rewrite IH, andb_true_r.
  destruct c as [s|x|d|]; simpl; try reflexivity.
  destruct (is_nat_string s); [reflexivity|]. destruct (strptime lib s); reflexivity.
Qed.

Lemma rate_of_cell_shape lib col :
  forallb is_number_or_null (map (rate_of_cell lib) col) = true.
Proof.
  induction col as [|c cs IH]; simpl; [reflexivity|]. rewrite IH, andb_true_r.
  unfold rate_of_cell. simpl. destruct (read_number _ _); reflexivity.
Qed.

(** X3.  In the table the transformer returns for a non-empty input, a
    column vigencia_desde or vigencia_hasta holds dates and absent values
    only, a column tasa_interes_ea holds numbers and absent values only,
    and a column fecha_resolucion either holds dates and absent values only
    or is the input column, untouched. *)
Theorem transformed_column_types (lib : pandas) (df : DataFrame) :
  is_empty df = false ->
  exists out,
    transform_data lib df = Ok out /\
    (forall l col, l = "vigencia_desde" \/ l = "vigencia_hasta" ->
       column out l = Some col -> forallb is_date_or_null col = true) /\
    (forall col, column out "tasa_interes_ea" = Some col ->
       forallb is_number_or_null col = true) /\
    (forall col, column out "fecha_resolucion" = Some col ->
       forallb is_date_or_null col = true \/
       column (rename column_mapping df) "fecha_resolucion" = Some col).
Proof.
  intros E. exists (transformed lib df).
  split; [apply transform_data_nonempty; exact E|].
  split; [|split].
  - intros l col L C.
    destruct (column_transformed_source _ _ _ _ C) as [c0 C0].
    destruct L as [-> | ->].
    + rewrite (transformed_vigencia_desde lib df c0 C0) in C.
      injection C as <-. apply coerce_date_shape.
    + rewrite (transformed_vigencia_hasta lib df c0 C0) in C.
      injection C as <-. apply coerce_date_shape.
  - intros col C.
    destruct (column_transformed_source _ _ _ _ C) as [c0 C0].
    rewrite (transformed_rate lib df c0 C0) in C.
    injection C as <-. apply rate_of_cell_shape.
  - intros col C.
    destruct (column_transformed_source _ _ _ _ C) as [c0 C0].
    rewrite (transformed_fecha lib df c0 C0) in C. injection C as <-.
    destruct (forallb (date_acceptable lib) c0).
    + left. apply coerce_date_shape.
    + right. exact C0.
Qed.

Lemma transformed_column_types_witness :
  exists out,
    transform_data pandas2 dataset_sample = Ok out /\
    column out "vigencia_hasta" = Some [CDate (Date 2015 3 31); CNull] /\
    forallb is_date_or_null [CDate (Date 2015 3 31); CNull] = true.
Proof.
  destruct (transformed_column_types pandas2 dataset_sample)
    as [out [T [V _]]]; [reflexivity|].
  exists out. split; [exact T|].
  assert (column out "vigencia_hasta" = Some [CDate (Date 2015 3 31); CNull]) as C.
  { vm_compute in T. injection T as <-. vm_compute. reflexivity. }
  split; [exact C|]. apply (V "vigencia_hasta"); [right; reflexivity | exact C].
Defined.

(** * Further properties of the loader and of the ETL script *)

Lemma main_run_nonempty env w :
  is_empty (fst (extraction env csv_url)) = false ->
  main env w
  = load_data env
      (transformed (env_pandas env) (fst (extraction env csv_url)))
      "tibc_data.db" "tasas_interes_bancario"
      (fst (extract_data env csv_url w)).
Proof.
  intros E. unfold main. unfold bind at 1. rewrite extract_data_run. cbn [fst snd].
  rewrite E. cbn [negb]. unfold bind at 1, lift.
  rewrite (transform_data_nonempty _ _ E).
  rewrite is_empty_transformed, E. reflexivity.
Qed.

Lemma open_after_load_events env df db_name table_name opened :
  open_after (load_events env df db_name table_name) opened = opened.
Proof.
  unfold load_events. destruct (connect_fault env db_name); simpl; [reflexivity|].
  rewrite bool_decide_eq_true_2 by reflexivity. reflexivity.
Qed.

Lemma no_get_in_load_events env df db_name table_name :
  List.filter is_HttpGet (load_events env df db_name table_name) = [].
Proof. unfold load_events. destruct (connect_fault env db_name); reflexivity. Qed.

(** X4.  The ETL script never ends with an exception, whatever the
    network and the storage do: it returns normally, having sent exactly
    one GET request and leaving no storage connection open. *)
Theorem main_never_raises (env : environment) (w : world) :
  exists events,
    snd (main env w) = Ok tt /\
    trace (fst (main env w)) = (trace w ++ events)%list /\
    open_after events [] = [] /\
    List.filter is_HttpGet events = [HttpGet csv_url].
Proof.
  destruct (is_empty (fst (extraction env csv_url))) eqn:E.
  - rewrite (main_run_empty _ _ E). eexists. simpl.
    split; [reflexivity|]. split; [reflexivity|]. split; reflexivity.
  - rewrite (main_run_nonempty _ _ E), extract_data_run.
    assert (is_empty (transformed (env_pandas env)
                        (fst (extraction env csv_url))) = false) as E'
      by (rewrite is_empty_transformed; exact E).
    rewrite (load_data_run _ _ _ _ _ E'). simpl.
    exists ([Print ("Iniciando la extracción de datos desde: " ++ csv_url);
             HttpGet csv_url; Print (snd (extraction env csv_url))]
            ++ load_events env
                 (transformed (env_pandas env) (fst (extraction env csv_url)))
                 "tibc_data.db" "tasas_interes_bancario")%list.
    split; [reflexivity|]. split; [rewrite app_assoc; reflexivity|].
    split.
    + simpl. apply open_after_load_events.
    + simpl. rewrite no_get_in_load_events. reflexivity.
Qed.

(** X5.  When the extractor returns a table that is not empty, the script
    always goes on to load: it ends in the state load_data reaches on the
    transformed table, after the extraction, and the branch for an empty
    transformed table is never taken.  If moreover the storage works and
    accepts the identifiers, the file tibc_data.db then holds, under
    tasas_interes_bancario, the image of the transformed table.  The
    storage works when connecting succeeds and writing this table under
    this name does not fail. *)
Theorem main_stores_transformed (env : environment) (w : world) (df_raw : DataFrame) :
  snd (extract_data env csv_url w) = Ok df_raw ->
  is_empty df_raw = false ->
  exists out,
    transform_data (env_pandas env) df_raw = Ok out /\
    main env w
    = load_data env out "tibc_data.db" "tasas_interes_bancario"
        (fst (extract_data env csv_url w)) /\
    (connect_fault env "tibc_data.db" = None ->
     write_fault env out "tasas_interes_bancario" = None ->
     names_valid out "tasas_interes_bancario" = true ->
     duplicate_columns out = false ->
     disk (fst (main env w)) !! "tibc_data.db"
       ≫= (fun db => db !! "tasas_interes_bancario")
     = Some (sql_of_frame env out)).
Proof.
  intros X E. rewrite extract_data_run in X. simpl in X. injection X as X.
  exists (transformed (env_pandas env) df_raw).
  split; [apply transform_data_nonempty; exact E|].
  subst df_raw. split; [apply main_run_nonempty; exact E|].
  intros C F V D. rewrite (main_run_nonempty _ _ E), extract_data_run.
  rewrite load_data_run by (rewrite is_empty_transformed; exact E). simpl.
  apply load_disk_table; assumption.
Qed.

Lemma main_stores_transformed_witness :
  exists out,
    transform_data pandas2 dataset_sample = Ok out /\
    disk (fst (main dataset_env empty_world)) !! "tibc_data.db"
      ≫= (fun db => db !! "tasas_interes_bancario")
    = Some (sql_of_frame dataset_env out).
Proof.
  destruct (main_stores_transformed dataset_env empty_world dataset_sample)
    as [out [T [_ S]]]; [vm_compute; reflexivity | reflexivity |].
  exists out. split; [exact T|].
  vm_compute in T. injection T as <-.
  apply S; vm_compute; reflexivity.
Defined.

Lemma created_other path q d : q <> path -> created path d !! q = d !! q.
Proof.
  intros H. unfold created. destruct (d !! path); [reflexivity|].
  apply lookup_insert_ne. congruence.
Qed.

Lemma store_effect_other env df table_name db t :
  write_fault env df table_name = None -> t <> table_name ->
  store_effect env df table_name db !! t = db !! t.
Proof.
  intros F H. unfold store_effect. rewrite F.
  destruct (negb (names_valid df table_name)); [reflexivity|].
  destruct (duplicate_columns df).
  - apply lookup_delete_ne. congruence.
  - rewrite lookup_insert_ne by congruence. apply lookup_delete_ne. congruence.
Qed.

(** X6.  load_data touches one table of one file: every other database
    file is after the call what it was before, whatever the storage does,
    and when the storage engine does not fail every other table of the
    file it writes to is what it was before too. *)
Theorem load_data_touches_one_table (env : environment) (df : DataFrame)
    (db_name table_name : string) (w : world) :
  (forall p, p <> db_name ->
     disk (fst (load_data env df db_name table_name w)) !! p = disk w !! p) /\
  (write_fault env df table_name = None ->
   forall t, t <> table_name ->
     disk (fst (load_data env df db_name table_name w)) !! db_name
       ≫= (fun db => db !! t)
     = disk w !! db_name ≫= (fun db => db !! t)).
Proof.
  destruct (is_empty df) eqn:E.
  - rewrite (load_data_empty _ _ _ _ _ E). simpl. split; reflexivity.
  - rewrite (load_data_run _ _ _ _ _ E). simpl. unfold load_disk.
    destruct (connect_fault env db_name); [split; reflexivity|].
    split.
    + intros p Hp. rewrite lookup_alter_ne by congruence.
      apply created_other. exact Hp.
    + intros F t Ht. rewrite lookup_alter_eq. unfold created.
      destruct (disk w !! db_name) as [db|] eqn:L.
      * rewrite L. simpl. apply store_effect_other; assumption.
      * rewrite lookup_insert_eq. simpl.
        rewrite store_effect_other by assumption. apply lookup_empty.
Qed.

Lemma load_data_touches_one_table_witness :
  disk (fst (load_data quiet_env loaded_sample "tibc_data.db" "otra_tabla" stale_world))
    !! "tibc_data.db" ≫= (fun db => db !! "tasas_interes_bancario")
  = Some (Table 3 [("resolucion_id", [SqlText "R-7"; SqlText "R-8"; SqlText "R-9"])]).
Proof.
  destruct (load_data_touches_one_table quiet_env loaded_sample
              "tibc_data.db" "otra_tabla" stale_world) as [_ H].
  rewrite (H eq_refl "tasas_interes_bancario") by discriminate.
  vm_compute. reflexivity.
Defined.

Lemma filter_label_map_data (h : list cell -> list cell) l cols :
  List.filter (has_label l) (map (fun c => (fst c, h (snd c))) cols)
  = map (fun c => (fst c, h (snd c))) (List.filter (has_label l) cols).
Proof.
  induction cols as [|c cs IH]; simpl; [reflexivity|].
  change (has_label l (fst c, h (snd c))) with (has_label l c).
  destruct (has_label l c); simpl; rewrite IH; reflexivity.
Qed.

Lemma column_map_data n n' (h : list cell -> list cell) l cols :
  column (Frame n (map (fun c => (fst c, h (snd c))) cols)) l
  = option_map h (column (Frame n' cols) l).
Proof.
  unfold column, getitem. simpl. rewrite filter_label_map_data.
  destruct (List.filter (has_label l) cols) as [|c [|c' cs]]; reflexivity.
Qed.

Lemma frame_of_stored env df :
  frame_of_table (sql_of_frame env df)
  = Frame (nrows df)
          (map (fun c => (fst c, read_back env (snd c))) (columns df)).
Proof.
  unfold frame_of_table, sql_of_frame, read_back. simpl. f_equal.
  rewrite map_map. apply map_ext. intros c. simpl. rewrite map_map. reflexivity.
Qed.

Lemma read_after_load env df db_name table_name w :
  is_empty df = false ->
  connect_fault env db_name = None ->
  write_fault env df table_name = None ->
  read_fault env = None ->
  names_valid df table_name = true ->
  duplicate_columns df = false ->
  snd (read_sql_query env table_name db_name
         (fst (load_data env df db_name table_name w)))
  = Ok (frame_of_table (sql_of_frame env df)).
Proof.
  intros E C F R V D. rewrite (load_data_run _ _ _ _ _ E).
  unfold read_sql_query. rewrite R. unfold bind, get. cbn [fst snd disk].
  rewrite (load_disk_table _ _ _ _ _ C F V D). reflexivity.
Qed.

Lemma column_read_back env df l col :
  column df l = Some col ->
  column (frame_of_table (sql_of_frame env df)) l = Some (read_back env col).
Proof.
  intros H. rewrite frame_of_stored.
  rewrite (column_map_data _ (nrows df) (read_back env)).
  destruct df as [n cols]. simpl in *. rewrite H. reflexivity.
Qed.

Lemma sql_type_of_numbers col x :
  forallb is_number_or_null col = true -> In (CNum x) col ->
  sql_type_of col = REAL.
Proof.
  intros A I. unfold sql_type_of.
  assert (In (CNum x) (List.filter (fun c => negb (isnull c)) col)) as I'
    by (apply List.filter_In; split; [exact I | reflexivity]).
  assert (forallb (fun c => match c with CNum _ => true | _ => false end)
            (List.filter (fun c => negb (isnull c)) col) = true) as N.
  { apply forallb_forall. intros c Hc. apply List.filter_In in Hc.
    destruct Hc as [Hc Hn].
    pose proof (proj1 (forallb_forall _ _) A c Hc) as Hc'.
    destruct c; try discriminate; reflexivity. }
  destruct (List.filter (fun c => negb (isnull c)) col) as [|v vs];
    [destruct I'|].
  rewrite N. reflexivity.
Qed.

Lemma read_back_lookup env col i c :
  col !! i = Some c ->
  read_back env col !! i = Some (cell_of_sql (sql_of_cell env (sql_type_of col) c)).
Proof.
  intros H. unfold read_back.
  apply (map_lookup_some
           (fun c => cell_of_sql (sql_of_cell env (sql_type_of col) c)) col i c H).
Qed.

Lemma read_back_texts env col :
  forallb is_text_or_null col = true -> read_back env col = col.
Proof.
  intros A. unfold read_back.
  transitivity (map (fun c : cell => c) col); [|apply List.map_id].
  apply map_ext_in. intros c Hc.
  pose proof (proj1 (forallb_forall _ _) A c Hc) as T.
  destruct c; try discriminate; reflexivity.
Qed.

Lemma read_back_numbers env col :
  forallb is_number_or_null col = true -> read_back env col = col.
Proof.
  intros A. unfold read_back.
  transitivity (map (fun c : cell => c) col); [|apply List.map_id].
  apply map_ext_in. intros c Hc.
  pose proof (proj1 (forallb_forall _ _) A c Hc) as T.
  destruct c as [s|x|d|]; try discriminate; [|reflexivity].
  rewrite (sql_type_of_numbers col x A Hc). reflexivity.
Qed.

Lemma read_back_dates env col :
  forallb is_date_or_null col = true ->
  read_back env col = map date_as_stored col.
Proof.
  intros A. unfold read_back. apply map_ext_in. intros c Hc.
  pose proof (proj1 (forallb_forall _ _) A c Hc) as T.
  destruct c; try discriminate; reflexivity.
Qed.

(** X7.  Reading back what was loaded: when the storage works and accepts
    the identifiers, the query the visualization script runs on the table
    load_data has just written returns a table with the same number of
    rows and the same labels.  In every column a text and an absent value
    come back as they were, a date comes back as the text
    "YYYY-MM-DD 00:00:00", and a number comes back as that number when
    the column was declared REAL and as the text SQLite made of it when
    the column was declared TEXT.  So a column of texts and a column of
    numbers, absent values included, come back as they were loaded; a
    number next to a text in one column does not. *)
Theorem load_then_read (env : environment) (df : DataFrame)
    (db_name table_name : string) (w : world) :
  is_empty df = false ->
  connect_fault env db_name = None ->
  write_fault env df table_name = None ->
  read_fault env = None ->
  names_valid df table_name = true ->
  duplicate_columns df = false ->
  exists back,
    snd (read_sql_query env table_name db_name
           (fst (load_data env df db_name table_name w))) = Ok back /\
    nrows back = nrows df /\
    map fst (columns back) = map fst (columns df) /\
    (forall l col, column df l = Some col ->
       exists bcol,
         column back l = Some bcol /\
         length bcol = length col /\
         (forall i s, col !! i = Some (CStr s) -> bcol !! i = Some (CStr s)) /\
         (forall i, col !! i = Some CNull -> bcol !! i = Some CNull) /\
         (forall i d, col !! i = Some (CDate d) ->
                      bcol !! i = Some (CStr (str_of_date d ++ " 00:00:00"))) /\
         (forall i x, col !! i = Some (CNum x) ->
                      bcol !! i
                      = Some (match sql_type_of col with
                              | TEXT => CStr (sqlite_text_of_number env x)
                              | _ => CNum x
                              end)) /\
         (forallb is_text_or_null col = true -> bcol = col) /\
         (forallb is_number_or_null col = true -> bcol = col) /\
         (forallb is_date_or_null col = true -> bcol = map date_as_stored col)) /\
    sql_type_of [CStr "n.d."; CNum (Finite (Dec 125 (-1)))] = TEXT.
Proof.
  intros E C F R V D. exists (frame_of_table (sql_of_frame env df)).
  split; [apply read_after_load; assumption|].
  split; [rewrite frame_of_stored; reflexivity|].
  split; [rewrite frame_of_stored; simpl; rewrite map_map; reflexivity|].
  split; [|reflexivity].
  intros l col H. exists (read_back env col).
  split; [apply column_read_back; exact H|].
  split; [apply length_map|].
  split; [intros i s K; rewrite (read_back_lookup _ _ _ _ K); reflexivity|].
  split; [intros i K; rewrite (read_back_lookup _ _ _ _ K); reflexivity|].
  split; [intros i d K; rewrite (read_back_lookup _ _ _ _ K); reflexivity|].
  split.
  { intros i x K. rewrite (read_back_lookup _ _ _ _ K). simpl.
    destruct (sql_type_of col); reflexivity. }
  split; [apply read_back_texts|].
  split; [apply read_back_numbers | apply read_back_dates].
Qed.

Lemma load_then_read_witness :
  exists back,
    snd (read_sql_query quiet_env "tasas_interes_bancario" "tibc_data.db"
           (fst (load_data quiet_env loaded_sample "tibc_data.db"
                   "tasas_interes_bancario" stale_world))) = Ok back /\
    nrows back = 2%nat /\
    column back "vigencia_hasta" = Some [CStr "2015-03-31 00:00:00"; CNull].
Proof.
  destruct (load_then_read quiet_env loaded_sample "tibc_data.db"
              "tasas_interes_bancario" stale_world)
    as [back [R [N [_ [K _]]]]];
    [reflexivity | reflexivity | reflexivity | reflexivity
     | vm_compute; reflexivity | vm_compute; reflexivity |].
  exists back. split; [exact R|]. split; [exact N|].
  destruct (K "vigencia_hasta" [CDate (Date 2015 3 31); CNull])
    as [bcol [B [_ [_ [_ [_ [_ [_ [_ Dt]]]]]]]]]; [vm_compute; reflexivity|].
  rewrite B, Dt by reflexivity. reflexivity.
Defined.

Example mixed_column_read_back :
  read_back quiet_env [CStr "n.d."; CNum (Finite (Dec 125 (-1)))]
  = [CStr "n.d."; CStr "12.5"].
Proof. vm_compute. reflexivity. Qed.

(** * Further properties of the visualization script *)

Lemma select_forallb {A} (P : A -> bool) mask (l : list A) :
  forallb P l = true -> forallb P (select mask l) = true.
Proof.
  revert l. induction mask as [|b bs IH]; intros [|x xs] H; simpl; try reflexivity.
  simpl in H. apply andb_true_iff in H. destruct H as [Hx Hxs].
  destruct b; simpl; [rewrite Hx|]; apply IH; exact Hxs.
Qed.

Lemma select_length {A} mask (l : list A) :
  length l = length mask ->
  length (select mask l) = length (List.filter (fun b : bool => b) mask).
Proof.
  revert l. induction mask as [|b bs IH]; intros [|x xs] H; simpl in *;
    try reflexivity; try discriminate.
  injection H as H. destruct b; simpl; rewrite (IH xs H); reflexivity.
Qed.

Lemma filter_length_le {A} (p : A -> bool) l :
  (length (List.filter p l) <= length l)%nat.
Proof.
  induction l as [|x xs IH]; simpl; [lia|]. destruct (p x); simpl; lia.
Qed.

Lemma select_seq_forallb (P : cell -> bool) (g : nat -> bool) l k n :
  (forall i, g (k + i)%nat = true -> P (nth i l CNull) = true) ->
  forallb P (select (map g (seq k n)) l) = true.
Proof.
  revert k l. induction n as [|n IH]; intros k [|x xs] H; simpl; try reflexivity.
  assert (forallb P (select (map g (seq (S k) n)) xs) = true) as R.
  { apply IH. intros i Hi. apply (H (S i)). rewrite Nat.add_succ_r. exact Hi. }
  destruct (g k) eqn:G; [|exact R].
  simpl. rewrite R, andb_true_r. apply (H 0%nat). rewrite Nat.add_0_r. exact G.
Qed.

Lemma column_In df l col :
  column df l = Some col -> In (l, col) (columns df).
Proof.
  unfold column, getitem. intros H.
  destruct (List.filter (has_label l) (columns df)) as [|c [|c' cs]] eqn:F;
    try discriminate.
  injection H as <-.
  assert (In c (List.filter (has_label l) (columns df))) as Hin
    by (rewrite F; left; reflexivity).
  apply List.filter_In in Hin. destruct Hin as [Hin Hl].
  unfold has_label in Hl. apply bool_decide_eq_true_1 in Hl.
  destruct c as [n d]. simpl in *. subst n. exact Hin.
Qed.

Lemma column_present df l col :
  column df l = Some col -> existsb (has_label l) (columns df) = true.
Proof.
  unfold column, getitem. intros H.
  destruct (List.filter (has_label l) (columns df)) as [|c cs] eqn:F;
    [discriminate|].
  eapply filter_nonempty_existsb. eassumption.
Qed.

Lemma dropna_inv subset df out :
  dropna subset df = Ok out ->
  out = Frame (length (List.filter (fun b : bool => b) (dropna_mask subset df)))
              (map (fun c => (fst c, select (dropna_mask subset df) (snd c)))
                   (columns df)).
Proof.
  unfold dropna, dropna_mask. destruct (List.filter _ subset); [|discriminate].
  intros [= <-]. reflexivity.
Qed.

Lemma dropna_mask_length subset df : length (dropna_mask subset df) = nrows df.
Proof. unfold dropna_mask. rewrite length_map, length_seq. reflexivity. Qed.

(** A column under one of the labels has no missing value after dropna. *)
Lemma dropna_column_complete subset df out l col :
  dropna subset df = Ok out ->
  In l subset ->
  column df l = Some col ->
  column out l = Some (select (dropna_mask subset df) col) /\
  forallb (fun c => negb (isnull c)) (select (dropna_mask subset df) col) = true.
Proof.
  intros D Hl C. rewrite (dropna_inv _ _ _ D). split.
  - rewrite (column_map_data _ (nrows df) (select (dropna_mask subset df))).
    destruct df as [n cols]. simpl in *. rewrite C. reflexivity.
  - unfold dropna_mask. apply select_seq_forallb. intros i Hi. simpl in Hi.
    rewrite forallb_forall in Hi.
    apply (Hi (l, col)). apply List.filter_In. split.
    + apply column_In. exact C.
    + apply bool_decide_eq_true_2. simpl. apply list_elem_of_In. exact Hl.
Qed.

Lemma dropna_column subset df out l col :
  dropna subset df = Ok out ->
  column df l = Some col ->
  column out l = Some (select (dropna_mask subset df) col).
Proof.
  intros D C. rewrite (dropna_inv _ _ _ D).
  rewrite (column_map_data _ (nrows df) (select (dropna_mask subset df))).
  destruct df as [n cols]. simpl in *. rewrite C. reflexivity.
Qed.

Lemma dropna_shape subset df out :
  dropna subset df = Ok out ->
  (nrows out <= nrows df)%nat /\
  map fst (columns out) = map fst (columns df) /\
  (well_formed df -> well_formed out).
Proof.
  intros D. rewrite (dropna_inv _ _ _ D). simpl. split; [|split].
  - pose proof (filter_length_le (fun b : bool => b) (dropna_mask subset df)) as K.
    rewrite dropna_mask_length in K. exact K.
  - rewrite map_map. reflexivity.
  - unfold well_formed. simpl. intros W. apply Forall_map.
    eapply Forall_impl; [exact W|]. intros c Hc. simpl.
    apply select_length. rewrite dropna_mask_length. exact Hc.
Qed.

Lemma dropna_ok subset df :
  (forall l, In l subset -> is_Some (column df l)) ->
  exists out, dropna subset df = Ok out.
Proof.
  intros H. unfold dropna.
  destruct (List.filter _ subset) as [|l ls] eqn:F; [eauto|].
  exfalso.
  assert (In l (List.filter
                  (fun l => negb (existsb (has_label l) (columns df))) subset)) as Hin
    by (rewrite F; left; reflexivity).
  apply List.filter_In in Hin. destruct Hin as [Hin Hl].
  destruct (H l Hin) as [col C].
  rewrite (column_present _ _ _ C) in Hl. discriminate.
Qed.

(** One conversion of the script, when it goes through. *)
Lemma reassign_inv l f df out :
  (forall cs, exists e, f (SubFrame cs) = Raise e) ->
  reassign l f df = Ok out ->
  exists col data,
    column df l = Some col /\ f (Series col) = Ok data /\ out = setitem df l data.
Proof.
  intros Hf. unfold reassign, column.
  destruct (getitem df l) as [[col|cs]|e]; simpl; try discriminate.
  - destruct (f (Series col)) as [data|e] eqn:F; simpl; [|discriminate].
    intros [= <-]. eauto.
  - destruct (Hf cs) as [e ->]. discriminate.
Qed.

Lemma reassign_ok l f df col data :
  column df l = Some col -> f (Series col) = Ok data ->
  reassign l f df = Ok (setitem df l data).
Proof.
  unfold reassign, column. intros C F.
  destruct (getitem df l) as [[c|cs]|e]; try discriminate.
  injection C as ->. simpl. rewrite F. reflexivity.
Qed.

Lemma setitem_shape df l col data :
  column df l = Some col -> length data = length col ->
  nrows (setitem df l data) = nrows df /\
  map fst (columns (setitem df l data)) = map fst (columns df) /\
  (well_formed df -> well_formed (setitem df l data)).
Proof.
  intros C L. split; [apply nrows_setitem|].
  split; [eapply labels_setitem_present; eassumption|].
  intros W. apply well_formed_setitem; [exact W|].
  rewrite L. eapply column_length; eassumption.
Qed.

(** The table the script has before its dropna, when the four conversions
    went through. *)
Lemma cleaned_inv env df out :
  cleaned env df = Ok out ->
  exists df4 dates rates,
    nrows df4 = nrows df /\
    map fst (columns df4) = map fst (columns df) /\
    (well_formed df -> well_formed df4) /\
    column df4 "fecha_resolucion" = Some dates /\
    column df4 "tasa_interes_ea" = Some (map (to_numeric_cell (env_pandas env)) rates) /\
    dropna ["fecha_resolucion"; "tasa_interes_ea"] df4 = Ok out.
Proof.
  unfold cleaned.
  destruct (reassign "fecha_resolucion" _ df) as [d1|] eqn:R1; [|discriminate].
  cbn [rbind].
  destruct (reassign "vigencia_desde" _ d1) as [d2|] eqn:R2; [|discriminate].
  cbn [rbind].
  destruct (reassign "vigencia_hasta" _ d2) as [d3|] eqn:R3; [|discriminate].
  cbn [rbind].
  destruct (reassign "tasa_interes_ea" _ d3) as [d4|] eqn:R4; [|discriminate].
  cbn [rbind]. intros D.
  apply reassign_inv in R1; [|intros cs; simpl; eauto].
  apply reassign_inv in R2; [|intros cs; simpl; eauto].
  apply reassign_inv in R3; [|intros cs; simpl; eauto].
  apply reassign_inv in R4; [|intros cs; simpl; eauto].
  destruct R1 as [c1 [x1 [C1 [F1 ->]]]]. destruct R2 as [c2 [x2 [C2 [F2 ->]]]].
  destruct R3 as [c3 [x3 [C3 [F3 ->]]]]. destruct R4 as [c4 [x4 [C4 [F4 ->]]]].
  simpl in F1, F2, F3, F4.
  injection F1 as <-. injection F2 as <-. injection F3 as <-. injection F4 as <-.
  destruct (setitem_shape _ _ _ (map (infer_datetime env c1) c1) C1 (length_map _ _))
    as [N1 [L1 W1]].
  destruct (setitem_shape _ _ _ (map (infer_datetime env c2) c2) C2 (length_map _ _))
    as [N2 [L2 W2]].
  destruct (setitem_shape _ _ _ (map (infer_datetime env c3) c3) C3 (length_map _ _))
    as [N3 [L3 W3]].
  destruct (setitem_shape _ _ _ (map (to_numeric_cell (env_pandas env)) c4) C4 (length_map _ _))
    as [N4 [L4 W4]].
  eexists _, (map (infer_datetime env c1) c1), c4.
  split; [|split; [|split; [|split; [|split; [|exact D]]]]].
  - congruence.
  - congruence.
  - auto.
  - rewrite !column_setitem_other by discriminate.
    eapply column_setitem_same. eassumption.
  - eapply column_setitem_same. eassumption.
Qed.

Lemma to_numeric_cell_shape lib col :
  forallb is_number_or_null (map (to_numeric_cell lib) col) = true.
Proof.
  induction col as [|c cs IH]; simpl; [reflexivity|]. rewrite IH, andb_true_r.
  destruct c as [s|x|d|]; simpl; try reflexivity.
  destruct (read_number _ s); reflexivity.
Qed.

Lemma numbers_when_complete col :
  forallb is_number_or_null col = true ->
  forallb (fun c => negb (isnull c)) col = true ->
  forallb is_number col = true.
Proof.
  induction col as [|c cs IH]; simpl; [reflexivity|].
  intros H1 H2. apply andb_true_iff in H1. apply andb_true_iff in H2.
  destruct H1 as [A1 B1], H2 as [A2 B2]. rewrite (IH B1 B2), andb_true_r.
  destruct c; simpl in *; congruence.
Qed.

Lemma cleaned_rates_numbers env df out :
  cleaned env df = Ok out ->
  exists col, column out "tasa_interes_ea" = Some col /\
              forallb is_number col = true.
Proof.
  intros H. destruct (cleaned_inv _ _ _ H) as [df4 [dates [rates [_ [_ [_ [_ [Ct D]]]]]]]].
  destruct (dropna_column_complete _ _ _ "tasa_interes_ea"
              (map (to_numeric_cell (env_pandas env)) rates) D)
    as [C K]; [simpl; auto | exact Ct |].
  eexists. split; [exact C|].
  apply numbers_when_complete; [|exact K].
  apply select_forallb. apply to_numeric_cell_shape.
Qed.

Lemma cleaned_shape env df out :
  cleaned env df = Ok out ->
  (nrows out <= nrows df)%nat /\
  map fst (columns out) = map fst (columns df) /\
  (well_formed df -> well_formed out).
Proof.
  intros H. destruct (cleaned_inv _ _ _ H) as [df4 [dates [rates [N [L [W [_ [_ D]]]]]]]].
  destruct (dropna_shape _ _ _ D) as [N' [L' W']].
  split; [lia|]. split; [congruence | auto].
Qed.

(** X8.  What the script hands to its charts: when the four conversions
    and the dropna go through, the table has the columns of the table that
    was read, at most as many rows, columns of equal length if that table
    had them, no missing value in fecha_resolucion and in tasa_interes_ea,
    and in tasa_interes_ea nothing but numbers. *)
Theorem cleaned_has_no_missing (env : environment) (df out : DataFrame) :
  cleaned env df = Ok out ->
  (nrows out <= nrows df)%nat /\
  map fst (columns out) = map fst (columns df) /\
  (well_formed df -> well_formed out) /\
  (exists col, column out "fecha_resolucion" = Some col /\
               forallb (fun c => negb (isnull c)) col = true) /\
  (exists col, column out "tasa_interes_ea" = Some col /\
               forallb is_number col = true).
Proof.
  intros H. destruct (cleaned_shape _ _ _ H) as [N [L W]].
  split; [exact N|]. split; [exact L|]. split; [exact W|].
  split; [|apply (cleaned_rates_numbers _ _ _ H)].
  destruct (cleaned_inv _ _ _ H) as [df4 [dates [rates [_ [_ [_ [Cf [_ D]]]]]]]].
  destruct (dropna_column_complete _ _ _ "fecha_resolucion" dates D)
    as [C K]; [simpl; auto | exact Cf |]. eauto.
Qed.

Lemma cleaned_has_no_missing_witness :
  exists out,
    cleaned quiet_env (frame_of_table (sql_of_frame quiet_env loaded_sample)) = Ok out /\
    (nrows out <= 2)%nat /\
    (exists col, column out "tasa_interes_ea" = Some col /\
                 forallb is_number col = true).
Proof.
  eexists. split; [vm_compute; reflexivity|].
  destruct (cleaned_has_no_missing quiet_env
              (frame_of_table (sql_of_frame quiet_env loaded_sample)) _ eq_refl)
    as [N [_ [_ [_ R]]]].
  split; [exact N | exact R].
Defined.

Lemma numbers_of_numbers col :
  forallb is_number col = true ->
  exists xs, numbers_of col = Some xs /\ length xs = length col.
Proof.
  intros H.
  assert (is_Some (numbers_of col)) as [xs Hx].
  { unfold numbers_of. apply mapM_is_Some_2.
    induction col as [|c cs IH]; [constructor|].
    simpl in H. apply andb_true_iff in H. destruct H as [Hc Hcs].
    constructor; [|apply IH; exact Hcs].
    destruct c; simpl in *; try discriminate. eauto. }
  exists xs. split; [exact Hx|].
  unfold numbers_of in Hx. apply mapM_Some_1 in Hx.
  symmetry. eapply Forall2_length. eassumption.
Qed.

Lemma insert_desc_length x l : length (insert_desc x l) = S (length l).
Proof.
  induction l as [|y ys IH]; simpl; [reflexivity|].
  destruct (number_leb (snd x) (snd y)); simpl; [rewrite IH|]; reflexivity.
Qed.

Lemma ranked_length (l acc : list (nat * number)) :
  length (fold_left (fun a x => insert_desc x a) l acc)
  = (length l + length acc)%nat.
Proof.
  revert acc. induction l as [|x xs IH]; intros acc; simpl; [reflexivity|].
  rewrite IH, insert_desc_length. lia.
Qed.

(** On a column of numbers nlargest goes through and returns the smaller
    of [n] and the number of rows. *)
Lemma nlargest_numbers n l df col :
  column df l = Some col ->
  forallb is_number col = true ->
  exists top, nlargest n l df = Ok top /\ nrows top = Nat.min n (length col).
Proof.
  intros C H. destruct (numbers_of_numbers _ H) as [xs [Hx Lx]].
  unfold nlargest. unfold column in C.
  destruct (getitem df l) as [[c|cs]|e]; try discriminate.
  injection C as ->. simpl. rewrite Hx.
  eexists. split; [reflexivity|].
  unfold take_rows. simpl.
  rewrite length_take, length_map, ranked_length, length_combine, length_seq.
  simpl. rewrite Nat.min_id, Nat.add_0_r, Lx. reflexivity.
Qed.

Lemma charts_run_three env df w top :
  (forall path data, chart_fault env path data = None) ->
  nlargest 5 "tasa_interes_ea" df = Ok top ->
  nrows top <> 0%nat ->
  charts env df w
  = (World (disk w)
           (trace w ++ [SaveFig (output_image_path_1 env);
                        SaveFig (output_image_path_2 env);
                        SaveFig (output_image_path_3 env)]),
     Ok tt).
Proof.
  intros F N T. unfold charts, chart, bind, lift, emit, modify.
  rewrite !F, N. simpl.
  destruct (Nat.eqb_spec (nrows top) 0) as [E|_]; [contradiction|].
  rewrite F. simpl. rewrite <- !app_assoc. reflexivity.
Qed.

Lemma forallb_app_true {A} (p : A -> bool) l k :
  forallb p l = true -> forallb p k = true -> forallb p (l ++ k) = true.
Proof. intros H K. rewrite forallb_app, H, K. reflexivity. Qed.

(** The charts only print and save. *)
Lemma charts_effects env df w :
  exists evs,
    fst (charts env df w) = World (disk w) (trace w ++ evs) /\
    forallb is_output evs = true.
Proof.
  unfold charts, chart, bind, lift, print, emit, modify, raise.
  destruct (chart_fault env (output_image_path_1 env) df); simpl.
  { exists []. rewrite app_nil_r. destruct w. split; reflexivity. }
  destruct (chart_fault env (output_image_path_2 env) df); simpl.
  { eexists [_]. split; reflexivity. }
  destruct (nlargest 5 "tasa_interes_ea" df) as [top|e]; simpl.
  - destruct (nrows top =? 0)%nat; simpl.
    { eexists [_; _; _]. rewrite <- !app_assoc. split; reflexivity. }
    destruct (chart_fault env (output_image_path_3 env) top); simpl.
    + eexists [_; _]. rewrite <- !app_assoc. split; reflexivity.
    + eexists [_; _; _]. rewrite <- !app_assoc. split; reflexivity.
  - eexists [_; _]. rewrite <- !app_assoc. split; reflexivity.
Qed.

Lemma open_after_outputs evs opened :
  forallb is_output evs = true -> open_after evs opened = opened.
Proof.
  revert opened. induction evs as [|ev rest IH]; intros opened H; [reflexivity|].
  simpl in H. apply andb_true_iff in H. destruct H as [Hev Hrest].
  destruct ev; simpl in *; try discriminate; apply IH; exact Hrest.
Qed.

Lemma no_connect_in_outputs evs :
  forallb is_output evs = true -> List.filter is_Connect evs = [].
Proof.
  induction evs as [|ev rest IH]; intros H; [reflexivity|].
  simpl in H. apply andb_true_iff in H. destruct H as [Hev Hrest].
  destruct ev; simpl in *; try discriminate; apply IH; exact Hrest.
Qed.

Lemma events_since_app w d evs :
  events_since w (World d (trace w ++ evs)) = evs.
Proof. unfold events_since. simpl. apply drop_app_length. Qed.

(** The events of a run of the script: outputs only when no connection is
    made; otherwise the connection, its closing when the query returned a
    table, and outputs. *)
Lemma visualizacion_events env w :
  exists evs,
    fst (visualizacion env w) = World (disk w) (trace w ++ evs) /\
    match disk w !! db_path env with
    | None => forallb is_output evs = true
    | Some db =>
        match connect_fault env (db_path env) with
        | Some _ => forallb is_output evs = true
        | None =>
            exists rest,
              forallb is_output rest = true /\
              evs = Connect (db_path env)
                    :: (if readable env db then Close (db_path env) :: rest else rest)
        end
    end.
Proof.
  rewrite visualizacion_run. unfold readable.
  destruct (disk w !! db_path env) as [db|] eqn:L.
  2:{ eexists [_]. split; reflexivity. }
  rewrite visualizacion_body_run. cbv zeta.
  rewrite (created_present _ _ (ex_intro _ db L)). rewrite L. simpl.
  destruct (connect_fault env (db_path env)) as [e|].
  { eexists [_]. simpl. split; reflexivity. }
  destruct (read_fault env) as [e|].
  { eexists [_; _]. simpl. rewrite <- !app_assoc. split; [reflexivity|].
    eexists [_]. split; [|reflexivity]. reflexivity. }
  destruct (db !! TABLE_NAME) as [t|].
  2:{ eexists [_; _]. simpl. rewrite <- !app_assoc. split; [reflexivity|].
      eexists [_]. split; [|reflexivity]. reflexivity. }
  destruct (is_empty (frame_of_table t)).
  { eexists [_; _; _]. simpl. rewrite <- !app_assoc. split; [reflexivity|].
    eexists [_]. split; [|reflexivity]. reflexivity. }
  destruct (cleaned env (frame_of_table t)) as [df|e] eqn:C.
  2:{ destruct (cleaned_raises_exception _ _ _ C) as [x ->].
      eexists [_; _; _]. simpl. rewrite <- !app_assoc. split; [reflexivity|].
      eexists [_]. split; [|reflexivity]. reflexivity. }
  destruct (is_empty df).
  { eexists [_; _; _]. simpl. rewrite <- !app_assoc. split; [reflexivity|].
    eexists [_]. split; [|reflexivity]. reflexivity. }
  destruct (charts_effects env df
              (World (disk w) (trace w ++ [Connect (db_path env); Close (db_path env)])))
    as [cevs [Hw Hc]].
  destruct (charts_outcome env df
              (World (disk w) (trace w ++ [Connect (db_path env); Close (db_path env)])))
    as [[u Hr]|[x Hr]];
    destruct (charts env df _) as [w1 r]; simpl in Hw, Hr; subst w1 r; simpl;
    (eexists (Connect (db_path env) :: Close (db_path env) :: cevs ++ [_]);
     split; [rewrite <- !app_assoc; reflexivity|];
     eexists; split; [|reflexivity];
     apply forallb_app_true; [exact Hc | reflexivity]).
Qed.

(** X9.  The visualization script only reads: the database files are
    after the run what they were before.  It opens no connection when the
    file is missing or cannot be opened.  When the query returns a table
    the connection is closed before any conversion or chart; when the
    query fails, by a read error or a missing table, the run ends with the
    connection still open, the close standing after the query in the try
    block and the script having no finally clause. *)
Theorem visualizacion_storage_and_connection (env : environment) (w : world) :
  let events := events_since w (fst (visualizacion env w)) in
  disk (fst (visualizacion env w)) = disk w /\
  (disk w !! db_path env = None -> List.filter is_Connect events = []) /\
  (forall db, disk w !! db_path env = Some db ->
     (forall e, connect_fault env (db_path env) = Some e ->
                List.filter is_Connect events = []) /\
     (connect_fault env (db_path env) = None ->
        (readable env db = true -> open_after events [] = []) /\
        (readable env db = false -> open_after events [] = [db_path env]))).
Proof.
  intros events. subst events.
  destruct (visualizacion_events env w) as [evs [Hw H]].
  rewrite Hw, events_since_app. simpl.
  split; [reflexivity|]. split.
  - intros L. rewrite L in H. apply no_connect_in_outputs. exact H.
  - intros db L. rewrite L in H. split.
    + intros e C. rewrite C in H. apply no_connect_in_outputs. exact H.
    + intros C. rewrite C in H. destruct H as [rest [Hrest ->]]. split.
      * intros ->. simpl. rewrite bool_decide_eq_true_2 by reflexivity.
        apply open_after_outputs. exact Hrest.
      * intros ->. simpl. apply open_after_outputs. exact Hrest.
Qed.

Lemma visualizacion_storage_and_connection_witness :
  open_after (events_since loaded_world (fst (visualizacion unreadable_env loaded_world))) []
  = ["/srv/tibc/tibc_data.db"] /\
  open_after (events_since loaded_world (fst (visualizacion quiet_env loaded_world))) []
  = [].
Proof.
  destruct (visualizacion_storage_and_connection unreadable_env loaded_world)
    as [_ [_ H]].
  destruct (H _ eq_refl) as [_ H1]. destruct (H1 eq_refl) as [_ H2].
  split; [apply H2; reflexivity|].
  destruct (visualizacion_storage_and_connection quiet_env loaded_world)
    as [_ [_ K]].
  destruct (K _ eq_refl) as [_ K1]. destruct (K1 eq_refl) as [K2 _].
  apply K2. reflexivity.
Defined.

Lemma is_empty_false_nrows df : is_empty df = false -> nrows df <> 0%nat.
Proof.
  unfold is_empty. intros H. apply orb_false_iff in H. destruct H as [H _].
  apply Nat.eqb_neq. exact H.
Qed.

Lemma is_empty_false_of_smaller df out :
  (nrows out <= nrows df)%nat ->
  map fst (columns out) = map fst (columns df) ->
  is_empty out = false -> is_empty df = false.
Proof.
  intros N L H. unfold is_empty in *. apply orb_false_iff in H.
  destruct H as [H1 H2]. apply orb_false_iff.
  rewrite <- (length_map fst (columns df)), <- L, length_map. split; [|exact H2].
  apply Nat.eqb_neq. apply Nat.eqb_neq in H1. lia.
Qed.

(** X10.  A full run: when the file and the table are there, the table has
    columns of equal length, nothing fails, and rows are left after the
    cleaning, the script connects, closes the connection, saves the three
    charts in their order and reports success, and nothing else; the
    warning of the third chart about too few data is not printed. *)
Theorem visualizacion_saves_three_charts (env : environment) (w : world)
    (db : gmap string sql_table) (t : sql_table) (df : DataFrame) :
  disk w !! db_path env = Some db ->
  connect_fault env (db_path env) = None ->
  read_fault env = None ->
  db !! TABLE_NAME = Some t ->
  well_formed (frame_of_table t) ->
  cleaned env (frame_of_table t) = Ok df ->
  is_empty df = false ->
  (forall path data, chart_fault env path data = None) ->
  visualizacion env w
  = (World (disk w)
           (trace w ++
            [Connect (db_path env); Close (db_path env);
             SaveFig (output_image_path_1 env);
             SaveFig (output_image_path_2 env);
             SaveFig (output_image_path_3 env);
             Print "********** FIN DE GENERACIÓN DE VISUALIZACIONES (EXITOSO) **********"]),
     Ok tt).
Proof.
  intros L C R T W K E F.
  destruct (cleaned_shape _ _ _ K) as [N [Lb Wf]].
  pose proof (is_empty_false_of_smaller _ _ N Lb E) as E0.
  destruct (cleaned_rates_numbers _ _ _ K) as [col [Cc Hc]].
  destruct (nlargest_numbers 5 _ _ _ Cc Hc) as [top [Ht Nt]].
  assert (nrows top <> 0%nat) as Nz.
  { rewrite Nt, (column_length _ _ _ (Wf W) Cc).
    pose proof (is_empty_false_nrows _ E). lia. }
  rewrite visualizacion_run, L, visualizacion_body_run. cbv zeta.
  rewrite (created_present _ _ (ex_intro _ db L)), L, C, R. simpl.
  rewrite T, E0, K, E.
  rewrite (charts_run_three _ _ _ _ F Ht Nz). simpl.
  rewrite <- !app_assoc. reflexivity.
Qed.

Lemma visualizacion_saves_three_charts_witness :
  List.filter is_SaveFig (trace (fst (visualizacion quiet_env loaded_world)))
  = [SaveFig "/srv/tibc/tasa_interes_historial.png";
     SaveFig "/srv/tibc/tasa_interes_distribucion_tipo_credito.png";
     SaveFig "/srv/tibc/top_5_tasas_altas.png"] /\
  snd (visualizacion quiet_env loaded_world) = Ok tt.
Proof.
  erewrite (visualizacion_saves_three_charts quiet_env loaded_world _
              (sql_of_frame quiet_env loaded_sample) _ eq_refl eq_refl eq_refl eq_refl).
  - split; reflexivity.
  - repeat constructor.
  - vm_compute. reflexivity.
  - reflexivity.
  - reflexivity.
Defined.

Lemma cleaned_ok env df :
  (forall l, In l converted_labels -> is_Some (column df l)) ->
  exists out, cleaned env df = Ok out.
Proof.
  intros H.
  destruct (H "fecha_resolucion") as [c1 C1]; [simpl; auto|].
  destruct (H "vigencia_desde") as [c2 C2]; [simpl; auto|].
  destruct (H "vigencia_hasta") as [c3 C3]; [simpl; auto|].
  destruct (H "tasa_interes_ea") as [c4 C4]; [simpl; auto|].
  unfold cleaned.
  rewrite (reassign_ok "fecha_resolucion" _ df c1 _ C1 eq_refl). cbn [rbind].
  set (d1 := setitem df "fecha_resolucion" _).
  assert (column d1 "vigencia_desde" = Some c2) as C2'
    by (unfold d1; rewrite column_setitem_other by discriminate; exact C2).
  rewrite (reassign_ok "vigencia_desde" _ d1 c2 _ C2' eq_refl). cbn [rbind].
  set (d2 := setitem d1 "vigencia_desde" _).
  assert (column d2 "vigencia_hasta" = Some c3) as C3'
    by (unfold d2, d1; rewrite !column_setitem_other by discriminate; exact C3).
  rewrite (reassign_ok "vigencia_hasta" _ d2 c3 _ C3' eq_refl). cbn [rbind].
  set (d3 := setitem d2 "vigencia_hasta" _).
  assert (column d3 "tasa_interes_ea" = Some c4) as C4'
    by (unfold d3, d2, d1; rewrite !column_setitem_other by discriminate; exact C4).
  rewrite (reassign_ok "tasa_interes_ea" _ d3 c4 _ C4' eq_refl). cbn [rbind].
  apply dropna_ok. intros l [<-|[<-|[]]].
  - rewrite column_setitem_other by discriminate.
    unfold d3, d2. rewrite !column_setitem_other by discriminate.
    unfold d1. erewrite column_setitem_same by eassumption. eauto.
  - erewrite column_setitem_same by eassumption. eauto.
Qed.

(** X11.  Loader and visualization script together: when the loader has
    written a non-empty table that has the four converted columns, each
    once, to the file the script opens, and neither the storage nor the
    charts fail, the script ends with status 0. *)
Theorem load_then_visualize (env : environment) (df : DataFrame) (w : world) :
  is_empty df = false ->
  (forall l, In l converted_labels -> is_Some (column df l)) ->
  names_valid df TABLE_NAME = true ->
  duplicate_columns df = false ->
  connect_fault env (db_path env) = None ->
  write_fault env df TABLE_NAME = None ->
  read_fault env = None ->
  (forall path data, chart_fault env path data = None) ->
  exit_status
    (snd (visualizacion env (fst (load_data env df (db_path env) TABLE_NAME w))))
  = 0.
Proof.
  intros E H V D C F R G.
  rewrite (load_data_run _ _ _ _ _ E).
  pose proof (load_disk_table env df (db_path env) TABLE_NAME (disk w) C F V D) as T.
  set (d := load_disk env df (db_path env) TABLE_NAME (disk w)) in *.
  destruct (d !! db_path env) as [db|] eqn:L; [|discriminate]. simpl in T.
  rewrite visualizacion_run. cbn [fst disk]. rewrite L.
  rewrite visualizacion_body_run. cbv zeta. cbn [disk trace].
  rewrite (created_present _ _ (ex_intro _ db L)), L, C, R. simpl.
  rewrite T.
  assert (is_empty (frame_of_table (sql_of_frame env df)) = false) as E0.
  { rewrite <- E. apply is_empty_same_shape; rewrite frame_of_stored; simpl;
      [reflexivity | rewrite map_map; reflexivity]. }
  rewrite E0.
  destruct (cleaned_ok env (frame_of_table (sql_of_frame env df))) as [out K].
  { intros l Hl. destruct (H l Hl) as [col Hc].
    rewrite (column_read_back _ _ _ _ Hc). eauto. }
  rewrite K. destruct (is_empty out); [reflexivity|].
  destruct (cleaned_rates_numbers _ _ _ K) as [col [Cc Hc]].
  destruct (nlargest_numbers 5 _ _ _ Cc Hc) as [top [Ht _]].
  match goal with
  | |- context [charts env out ?w0] =>
      pose proof (charts_succeed env out w0 top G Ht) as S;
      destruct (charts env out w0) as [w1 r]
  end.
  simpl in S. subst r. reflexivity.
Qed.

Lemma load_then_visualize_witness :
  exit_status
    (snd (visualizacion quiet_env
            (fst (load_data quiet_env loaded_sample (db_path quiet_env) TABLE_NAME
                    empty_world))))
  = 0.
Proof.
  apply (load_then_visualize quiet_env loaded_sample empty_world).
  - reflexivity.
  - intros l [<-|[<-|[<-|[<-|[]]]]]; vm_compute; eauto.
  - vm_compute. reflexivity.
  - vm_compute. reflexivity.
  - reflexivity.
  - reflexivity.
  - reflexivity.
  - reflexivity.
Defined.
